(** * gaitalytics.features: a shallow embedding and its checked properties

    The development follows [src/gaitalytics/features.py].  Numbers are
    binary64 floats (Rocq's primitive floats), pandas event tables are lists of
    rows with their [attrs], Python exceptions are an explicit result type, and
    dictionaries that are iterated in insertion order are association lists. *)

From Stdlib Require Import Floats ZArith PArith Lia Bool String Ascii.
From Stdlib Require Import DecimalString List Sorted.
Import ListNotations.

Set Implicit Arguments.

(* ================================================================== *)
(** * Python values: exceptions, results, formatting *)
(* ================================================================== *)

Module Py.

(** The exception classes the embedded code can raise. *)
Inductive exn : Type :=
| ValueError (msg : string)
| IndexError (index size : nat)
| KeyError (key : string)
| AttributeError (msg : string).

Inductive result (A : Type) : Type :=
| Ok (a : A)
| Raise (e : exn).

Arguments Ok {A} a.
Arguments Raise {A} e.

Definition bind {A B : Type} (m : result A) (k : A -> result B) : result B :=
  match m with
  | Ok a => k a
  | Raise e => Raise e
  end.

Definition raises {A : Type} (m : result A) : bool :=
  match m with Ok _ => false | Raise _ => true end.

(** [str(n)] for a Python [int]. *)
Definition str_int (n : Z) : string := NilZero.string_of_int (Z.to_int n).

(** [s.startswith(p)]. *)
Fixpoint startswith (s p : string) {struct p} : bool :=
  match p with
  | EmptyString => true
  | String a p' =>
      match s with
      | EmptyString => false
      | String b s' => Ascii.eqb a b && startswith s' p'
      end
  end.

(** [s.endswith(suffix)]. *)
Definition endswith (s suffix : string) : bool :=
  (String.length suffix <=? String.length s)%nat
  && String.eqb
       (substring (String.length s - String.length suffix) (String.length suffix) s)
       suffix.

(** [seq[i]] on a numpy vector: out of range is an [IndexError]. *)
Definition getitem {A : Type} (l : list A) (i : nat) : result A :=
  match nth_error l i with
  | Some v => Ok v
  | None => Raise (IndexError i (length l))
  end.

(** A [dict] keeps insertion order; assigning to a present key keeps its place. *)
Fixpoint dict_set {V : Type} (d : list (string * V)) (k : string) (v : V)
  : list (string * V) :=
  match d with
  | [] => [(k, v)]
  | (k', v') :: d' =>
      if String.eqb k' k then (k, v) :: d' else (k', v') :: dict_set d' k v
  end.

Definition dict_update {V : Type} (d other : list (string * V)) : list (string * V) :=
  fold_left (fun acc kv => dict_set acc (fst kv) (snd kv)) other d.

(** [d.get(k)]. *)
Fixpoint dict_get {V : Type} (d : list (string * V)) (k : string) : option V :=
  match d with
  | [] => None
  | (k', v) :: d' => if String.eqb k' k then Some v else dict_get d' k
  end.

(** The builtin [min(iterable, key=...)]: the first element whose key no later
    key is strictly below; [None] stands for the [ValueError] on an empty
    iterable. *)
Fixpoint min_by_from {A : Type} (key : A -> float) (best : A) (l : list A) : A :=
  match l with
  | [] => best
  | x :: l' =>
      if PrimFloat.ltb (key x) (key best) then min_by_from key x l'
      else min_by_from key best l'
  end.

Definition min_by {A : Type} (key : A -> float) (l : list A) : option A :=
  match l with
  | [] => None
  | x :: l' => Some (min_by_from key x l')
  end.

(** The builtin [min(a, b)] of two values. *)
Definition min2 (a b : float) : float := if PrimFloat.ltb b a then b else a.

End Py.

Import Py.

Declare Scope py_scope.
Delimit Scope py_scope with py.
Notation "x <- m ;; k" := (Py.bind m (fun x => k))
  (at level 61, m at next level, right associativity) : py_scope.
Open Scope py_scope.
Open Scope string_scope.
Open Scope list_scope.

(* ================================================================== *)
(** * gaitalytics.events and gaitalytics.io: what features.py consumes *)
(* ================================================================== *)

Module Events.

(** Modelled from the spec: the two event labels of [gaitalytics.events]
    ([FOOT_STRIKE] and [FOOT_OFF]); the module is not among the sources, the
    spec names the labels and the values are those of the event files. *)
Definition FOOT_STRIKE : string := "Foot Strike".
Definition FOOT_OFF : string := "Foot Off".

(** One row of the event table: the columns [COLUMN_CONTEXT], [COLUMN_LABEL]
    and [COLUMN_TIME] of [io._EventInputFileReader]. *)
Record EventRow : Type := mkRow {
  context : string;
  label : string;
  time : float
}.

(** The event [DataFrame] of a cycle with its [attrs]. *)
Record DataFrame : Type := mkFrame {
  rows : list EventRow;
  attrs_context : string;
  attrs_cycle_id : Z
}.

Definition ipsi_rows (ev : DataFrame) : list EventRow :=
  filter (fun r => String.eqb (context r) (attrs_context ev)) (rows ev).

Definition contra_rows (ev : DataFrame) : list EventRow :=
  filter (fun r => negb (String.eqb (context r) (attrs_context ev))) (rows ev).

Definition with_label (l : string) (rs : list EventRow) : list EventRow :=
  filter (fun r => String.eqb (label r) l) rs.

Definition times (rs : list EventRow) : list float := map time rs.

End Events.

Import Events.

(* ================================================================== *)
(** * _CycleFeaturesCalculation.get_event_times *)
(* ================================================================== *)

Module EventTimes.

Definition event_times : Type := (float * float * float * float * float)%type.

Definition msg_no_events : string := "Trial does not have events.".

Definition msg_missing (ev : DataFrame) : string :=
  ("Missing events in segment " ++ attrs_context ev ++ " nr. "
    ++ str_int (attrs_cycle_id ev))%string.

Definition msg_sequence (ev : DataFrame) : string :=
  ("Error events sequence " ++ attrs_context ev ++ " nr. "
    ++ str_int (attrs_cycle_id ev))%string.

Definition get_event_times (trial_events : option DataFrame) : result event_times :=
  match trial_events with
  | None => Raise (ValueError msg_no_events)
  | Some ev =>
      if (length (rows ev) <? 3)%nat then Raise (ValueError (msg_missing ev))
      else
        let ipsi := ipsi_rows ev in
        let contra := contra_rows ev in
        if negb (length ipsi =? 3)%nat then Raise (ValueError (msg_sequence ev))
        else if negb (length contra =? 2)%nat then Raise (ValueError (msg_sequence ev))
        else
          let contra_fs := with_label FOOT_STRIKE contra in
          let contra_fo := with_label FOOT_OFF contra in
          let ipsi_fs := with_label FOOT_STRIKE ipsi in
          let ipsi_fo := with_label FOOT_OFF ipsi in
          ipsi_fs_time_start <- getitem (times ipsi_fs) 0 ;;
          ipsi_fs_time_end <- getitem (times ipsi_fs) 1 ;;
          ipsi_fo_time <- getitem (times ipsi_fo) 0 ;;
          contra_fs_time <- getitem (times contra_fs) 0 ;;
          contra_fo_time <- getitem (times contra_fo) 0 ;;
          Ok (ipsi_fs_time_start, contra_fo_time, contra_fs_time,
              ipsi_fo_time, ipsi_fs_time_end)
  end.

(** The cardinality validation of lines 119-122: three ipsi rows, two contra rows. *)
Definition cardinality_ok (ev : DataFrame) : bool :=
  ((length (ipsi_rows ev) =? 3) && (length (contra_rows ev) =? 2))%nat.

(** The label composition of a well-formed cycle; the code never tests it. *)
Definition labels_ok (ev : DataFrame) : bool :=
  ((length (with_label FOOT_STRIKE (ipsi_rows ev)) =? 2)
   && (length (with_label FOOT_OFF (ipsi_rows ev)) =? 1)
   && (length (with_label FOOT_STRIKE (contra_rows ev)) =? 1)
   && (length (with_label FOOT_OFF (contra_rows ev)) =? 1))%nat.

(** The spec's two failure kinds, read off the raised exception: both are
    [ValueError]s and differ by their message. *)
Definition is_MissingEventsError (e : exn) : bool :=
  match e with
  | ValueError msg =>
      String.eqb msg msg_no_events || startswith msg "Missing events in segment "
  | _ => false
  end.

Definition is_EventSequenceError (e : exn) : bool :=
  match e with
  | ValueError msg => startswith msg "Error events sequence "
  | _ => false
  end.

Definition fails_with {A : Type} (kind : exn -> bool) (m : result A) : bool :=
  match m with
  | Ok _ => false
  | Raise e => kind e
  end.

(** The order the spec asks of the five timestamps. *)
Definition non_decreasing (ts : event_times) : bool :=
  let '(t0, t1, t2, t3, t4) := ts in
  (PrimFloat.leb t0 t1 && PrimFloat.leb t1 t2 && PrimFloat.leb t2 t3
   && PrimFloat.leb t3 t4)%bool.

(** The weaker reading: every inner event lies inside the ipsi bracket. *)
Definition bracketed (ts : event_times) : bool :=
  let '(t0, t1, t2, t3, t4) := ts in
  (PrimFloat.leb t0 t1 && PrimFloat.leb t1 t4 && PrimFloat.leb t0 t2
   && PrimFloat.leb t2 t4 && PrimFloat.leb t0 t3 && PrimFloat.leb t3 t4
   && PrimFloat.leb t0 t4)%bool.

(** The five positional reads that follow the validation. *)
Definition positional_reads (ev : DataFrame) : result event_times :=
  let ipsi := ipsi_rows ev in
  let contra := contra_rows ev in
  ipsi_fs_time_start <- getitem (times (with_label FOOT_STRIKE ipsi)) 0 ;;
  ipsi_fs_time_end <- getitem (times (with_label FOOT_STRIKE ipsi)) 1 ;;
  ipsi_fo_time <- getitem (times (with_label FOOT_OFF ipsi)) 0 ;;
  contra_fs_time <- getitem (times (with_label FOOT_STRIKE contra)) 0 ;;
  contra_fo_time <- getitem (times (with_label FOOT_OFF contra)) 0 ;;
  Ok (ipsi_fs_time_start, contra_fo_time, contra_fs_time, ipsi_fo_time, ipsi_fs_time_end).

(** Two rows in time order. *)
Definition time_le (a b : EventRow) : Prop :=
  PrimFloat.leb (time a) (time b) = true.

End EventTimes.

Import EventTimes.

(* ================================================================== *)
(** * Labelled arrays (xarray) and the trial model *)
(* ================================================================== *)

Module Xr.

(** A 1-D array over the [feature] dimension. *)
Record FeatureArray : Type := mkFeatureArray {
  feature : list string;
  values : list float
}.

(** A 2-D array with dims [(feature, channel)]: one row per feature. *)
Record FeatureChannelArray : Type := mkFeatureChannelArray {
  fc_feature : list string;
  fc_channel : list string;
  fc_data : list (list float)
}.

(** A 2-D array with dims [(channel, time)] and its [attrs]: one row per
    channel. *)
Record ChannelArray : Type := mkChannelArray {
  channel : list string;
  time_coord : list float;
  samples : list (list float);
  array_context : string
}.

(** [xr.DataArray(data, coords={"feature": labels}, dims=["feature"])]:
    the coordinate must be as long as the data. *)
Definition DataArray (data : list float) (labels : list string) : result FeatureArray :=
  if (length labels =? length data)%nat then Ok (mkFeatureArray labels data)
  else Raise (ValueError "conflicting sizes for dimension 'feature'").

(** [a.assign_coords(feature=labels)] returns a NEW array; [a] is unchanged. *)
Definition assign_coords (a : FeatureArray) (labels : list string) : result FeatureArray :=
  DataArray (values a) labels.

(** [xr.concat(objs, pd.Index(index, name=...))] along a new dimension: the
    objects are stacked under the index; nothing to concatenate is a
    [ValueError].  The alignment of the stacked objects' own coordinates is
    not modelled: each object is kept as it is. *)
Record Stacked (I A : Type) : Type := mkStacked {
  index : list I;
  items : list A
}.

Definition concat_new_dim {I A : Type} (objs : list A) (idx : list I)
  : result (Stacked I A) :=
  match objs with
  | [] => Raise (ValueError "must supply at least one object to concatenate")
  | _ :: _ => Ok (mkStacked idx objs)
  end.

(** [xr.concat(objs, dim="feature")] along the existing [feature] dimension. *)
Definition concat_feature (objs : list FeatureArray) : result FeatureArray :=
  match objs with
  | [] => Raise (ValueError "must supply at least one object to concatenate")
  | _ :: _ =>
      Ok (mkFeatureArray (List.concat (map feature objs)) (List.concat (map values objs)))
  end.

(** Keep the entries of [row] whose position is set in [mask]. *)
Fixpoint select_mask {A : Type} (mask : list bool) (row : list A) : list A :=
  match mask, row with
  | b :: mask', x :: row' =>
      if b then x :: select_mask mask' row' else select_mask mask' row'
  | _, _ => []
  end.

(** [a.sel(time=slice(start, stop))] on an increasing time coordinate: the
    samples with [start <= time <= stop]. *)
Definition in_slice (start stop t : float) : bool :=
  PrimFloat.leb start t && PrimFloat.leb t stop.

Definition sel_time_slice (start stop : float) (a : ChannelArray) : ChannelArray :=
  let mask := map (in_slice start stop) (time_coord a) in
  mkChannelArray (channel a) (select_mask mask (time_coord a))
    (map (select_mask mask) (samples a)) (array_context a).

(** A [(channel, time)] array as xarray builds it: one row per channel label,
    one sample per time stamp in every row. *)
Definition regular (a : ChannelArray) : Prop :=
  length (samples a) = length (channel a)
  /\ Forall (fun row => length row = length (time_coord a)) (samples a).

(** [a.sel(feature=name)]: the value under the first matching label. *)
Fixpoint lookup_label (labels : list string) (data : list float) (name : string)
  : option float :=
  match labels, data with
  | l :: labels', v :: data' =>
      if String.eqb l name then Some v else lookup_label labels' data' name
  | _, _ => None
  end.

Definition sel_feature (a : FeatureArray) (name : string) : option float :=
  lookup_label (feature a) (values a) name.

End Xr.

Import Xr.

Module Model.

Inductive DataCategory : Type := MARKERS | ANALOGS | ANALYSIS.

Definition DataCategory_eqb (a b : DataCategory) : bool :=
  match a, b with
  | MARKERS, MARKERS | ANALOGS, ANALOGS | ANALYSIS, ANALYSIS => true
  | _, _ => false
  end.

(** [model.Trial]: the event table (or [None]) and the data categories in
    insertion order. *)
Record Trial : Type := mkTrial {
  events : option DataFrame;
  all_data : list (DataCategory * ChannelArray)
}.

Fixpoint lookup_data (c : DataCategory) (d : list (DataCategory * ChannelArray))
  : option ChannelArray :=
  match d with
  | [] => None
  | (c', a) :: d' => if DataCategory_eqb c' c then Some a else lookup_data c d'
  end.

Definition get_data (t : Trial) (c : DataCategory) : result ChannelArray :=
  match lookup_data c (all_data t) with
  | Some a => Ok a
  | None => Raise (KeyError "category")
  end.

Fixpoint set_data (c : DataCategory) (a : ChannelArray)
  (d : list (DataCategory * ChannelArray)) : list (DataCategory * ChannelArray) :=
  match d with
  | [] => [(c, a)]
  | (c', a') :: d' =>
      if DataCategory_eqb c' c then (c, a) :: d' else (c', a') :: set_data c a d'
  end.

Definition add_data (t : Trial) (c : DataCategory) (a : ChannelArray) : Trial :=
  mkTrial (events t) (set_data c a (all_data t)).

(** [model.TrialCycles.get_all_cycles()]: context -> cycle id -> cycle, both
    mappings in insertion order. *)
Definition TrialCycles : Type := list (string * list (Z * Trial)).

End Model.

Import Model.

(* ================================================================== *)
(** * The per-cycle framework: _CycleFeaturesCalculation *)
(* ================================================================== *)

Module CycleFeaturesCalculation.

Definition CycleResult : Type := Stacked Z FeatureArray.
Definition TrialResult : Type := Stacked string CycleResult.

Section Calculate.

(** The abstract per-cycle method a calculator implements. *)
Variable _calculate : Trial -> result FeatureArray.

(** The inner loop of [calculate]: one context's cycles in insertion order. *)
Fixpoint cycles_loop (context_cycles : list (Z * Trial))
  (context_results : list FeatureArray) (cycle_dim : list Z)
  : result (list FeatureArray * list Z) :=
  match context_cycles with
  | [] => Ok (context_results, cycle_dim)
  | (cycle_id, cycle) :: rest =>
      feature <- _calculate cycle ;;
      cycles_loop rest (context_results ++ [feature]) (cycle_dim ++ [cycle_id])
  end.

(** The outer loop of [calculate]: the contexts in insertion order. *)
Fixpoint contexts_loop (cycles : TrialCycles)
  (results : list CycleResult) (context_dim : list string)
  : result (list CycleResult * list string) :=
  match cycles with
  | [] => Ok (results, context_dim)
  | (context, context_cycles) :: rest =>
      inner <- cycles_loop context_cycles [] [] ;;
      let '(context_results, cycle_dim) := inner in
      context_results' <- concat_new_dim context_results cycle_dim ;;
      contexts_loop rest (results ++ [context_results']) (context_dim ++ [context])
  end.

Definition calculate (trial : TrialCycles) : result TrialResult :=
  outer <- contexts_loop trial [] [] ;;
  let '(results, context_dim) := outer in
  concat_new_dim results context_dim.



End Calculate.

(** [_create_result_from_dict]: keys and values in insertion order. *)
Definition _create_result_from_dict (result_dict : list (string * float))
  : result FeatureArray :=
  DataArray (map snd result_dict) (map fst result_dict).

(** [np_data.reshape(n, order="C")] of a 2-D array kept as its rows. *)
Definition reshape_C (np_data : list (list float)) (n : nat) : result (list float) :=
  let flat := List.concat np_data in
  if (length flat =? n)%nat then Ok flat
  else Raise (ValueError "cannot reshape array").

(** [shape[0]] and [shape[1]] of a 2-D array with the given channel axis. *)
Definition shape0 (a : FeatureChannelArray) : nat := length (fc_data a).
Definition shape1 (a : FeatureChannelArray) : nat := length (fc_channel a).

(** The label loop of [_flatten_features]: features outer, channels inner. *)
Definition new_labels (feature channel : list string) : list string :=
  flat_map (fun f => map (fun c => (c ++ "_" ++ f)%string) channel) feature.

Definition _flatten_features (features : FeatureChannelArray) : result FeatureArray :=
  let np_data := fc_data features in
  rs_data <- reshape_C np_data (shape1 features * shape0 features) ;;
  DataArray rs_data (new_labels (fc_feature features) (fc_channel features)).

(** The labels of [new_labels], one row per feature. *)
Definition label_rows (feature channel : list string) : list (list string) :=
  map (fun f => map (fun c => (c ++ "_" ++ f)%string) channel) feature.

(** A 2-D array as xarray builds it: one row per feature label, one entry
    per channel label in every row. *)
Definition well_formed (a : FeatureChannelArray) : Prop :=
  length (fc_data a) = length (fc_feature a)
  /\ Forall (fun row => length row = length (fc_channel a)) (fc_data a).

Fixpoint has_underscore (s : string) : bool :=
  match s with
  | EmptyString => false
  | String a s' => Ascii.eqb a "_" || has_underscore s'
  end.

End CycleFeaturesCalculation.

Import CycleFeaturesCalculation.

(* ================================================================== *)
(** * TimeSeriesFeatures and PhaseTimeSeriesFeatures *)
(* ================================================================== *)

Module TimeSeriesFeatures.

Definition not_nan (x : float) : bool := negb (PrimFloat.is_nan x).

Definition fmin (a b : float) : float := if PrimFloat.ltb b a then b else a.
Definition fmax (a b : float) : float := if PrimFloat.ltb a b then b else a.

(** [min(dim="time", skipna=True)] on one channel: missing samples are
    dropped; a channel of missing samples only gives not-a-number; a time
    axis of length zero has no minimum. *)
Definition nan_reduce (op : float -> float -> float) (row : list float) : result float :=
  match row with
  | [] => Raise (ValueError "zero-size array to reduction operation which has no identity")
  | _ :: _ =>
      match filter not_nan row with
      | [] => Ok nan
      | x :: xs => Ok (fold_left op xs x)
      end
  end.

Definition nanmin : list float -> result float := nan_reduce fmin.
Definition nanmax : list float -> result float := nan_reduce fmax.

(** Apply a reduction to every channel, left to right. *)
Fixpoint reduce_channels (r : list float -> result float) (rows : list (list float))
  : result (list float) :=
  match rows with
  | [] => Ok []
  | row :: rest =>
      v <- r row ;;
      vs <- reduce_channels r rest ;;
      Ok (v :: vs)
  end.

(** [max_feat - min_feat] on two arrays over the same channel coordinate. *)
Fixpoint sub_arrays (a b : list float) : list float :=
  match a, b with
  | x :: a', y :: b' => PrimFloat.sub x y :: sub_arrays a' b'
  | _, _ => []
  end.

Definition feature_names : list string :=
  ["min"; "max"; "mean"; "median"; "std"; "amplitude"].

(** A label as [_flatten_features] builds it from one of the six feature
    names, with nothing appended. *)
Definition plain_label (l : string) : Prop :=
  exists c f, In f feature_names /\ l = (c ++ "_" ++ f)%string.

Section Reductions.

(** numpy's [nanmean], [nanmedian] and [nanstd] over one channel. *)
Variables nanmean nanmedian nanstd : list float -> float.

Definition _calculate_features (trial : Trial) : result FeatureChannelArray :=
  markers <- get_data trial ANALYSIS ;;
  min_feat <- reduce_channels nanmin (samples markers) ;;
  max_feat <- reduce_channels nanmax (samples markers) ;;
  let mean_feat := map nanmean (samples markers) in
  let median_feat := map nanmedian (samples markers) in
  let std_feat := map nanstd (samples markers) in
  let amplitude_feat := sub_arrays max_feat min_feat in
  stacked <- concat_new_dim
    [min_feat; max_feat; mean_feat; median_feat; std_feat; amplitude_feat]
    feature_names ;;
  Ok (mkFeatureChannelArray (index stacked) (channel markers) (items stacked)).

Definition _calculate (trial : Trial) : result FeatureArray :=
  features <- _calculate_features trial ;;
  _flatten_features features.

End Reductions.

End TimeSeriesFeatures.

Module PhaseTimeSeriesFeatures.

(** [_create_phase_trial]: a fresh [Trial] holding every category cut to the
    time slice; the events are not carried over. *)
Definition _create_phase_trial (trial : Trial) (start stop : float) : Trial :=
  fold_left
    (fun phase_trial kv => add_data phase_trial (fst kv) (sel_time_slice start stop (snd kv)))
    (all_data trial) (mkTrial None []).

Definition swing_labels (a : FeatureArray) : list string :=
  map (fun f => (f ++ "_swing")%string) (feature a).

Section Calculate.

Variables nanmean nanmedian nanstd : list float -> float.

(** [round(x, 4)] on a numpy float. *)
Variable round4 : float -> float.

Definition _calculate (trial : Trial) : result FeatureArray :=
  let event_table := events trial in
  analysis_data <- get_data trial ANALYSIS ;;
  let context := array_context analysis_data in
  match event_table with
  | None => Raise (AttributeError "'NoneType' object has no attribute 'loc'")
  | Some event_table =>
      let event_ipsi :=
        filter (fun r => String.eqb (Events.context r) context) (rows event_table) in
      let event_ipsi_fo := with_label FOOT_OFF event_ipsi in
      fo <- getitem (times event_ipsi_fo) 0 ;;
      let fo_time := round4 fo in
      start_time <- getitem (time_coord analysis_data) 0 ;;
      end_time <- getitem (time_coord analysis_data) (length (time_coord analysis_data) - 1) ;;
      let stand_trial := _create_phase_trial trial start_time fo_time in
      let swing_trial := _create_phase_trial trial fo_time end_time in
      stand_features <- TimeSeriesFeatures._calculate nanmean nanmedian nanstd stand_trial ;;
      (* the array returned by assign_coords is dropped *)
      _ <- assign_coords stand_features (swing_labels stand_features) ;;
      swing_features <- TimeSeriesFeatures._calculate nanmean nanmedian nanstd swing_trial ;;
      _ <- assign_coords swing_features (swing_labels swing_features) ;;
      concat_feature [stand_features; swing_features]
  end.

End Calculate.

End PhaseTimeSeriesFeatures.

(* ================================================================== *)
(** * TemporalFeatures *)
(* ================================================================== *)

Module TemporalFeatures.

Open Scope float_scope.

Definition _calculate_supports (contra_fo_time contra_fs_time ipsi_fo_time end_time : float)
  : list (string * float) :=
  let double_support := (contra_fo_time + (ipsi_fo_time - contra_fs_time)) / end_time in
  let single_support := (contra_fs_time - contra_fo_time) / end_time in
  [("double_support", double_support); ("single_support", single_support)].

Definition _calculate (trial : Trial) : result FeatureArray :=
  let trial_events := events trial in
  match trial_events with
  | None => Raise (ValueError msg_no_events)
  | Some _ =>
      rel_event_times <- get_event_times trial_events ;;
      let '(t0, t1, t2, t3, t4) := rel_event_times in
      let result_dict := _calculate_supports t1 t2 t3 t4 in
      let result_dict := dict_set result_dict "foot_off" (t3 / t4) in
      let result_dict := dict_set result_dict "opposite_foot_off" (t1 / t4) in
      let result_dict := dict_set result_dict "opposite_foot_contact" (t2 / t4) in
      let result_dict := dict_set result_dict "stride_time" t4 in
      let result_dict := dict_set result_dict "step_time" (t4 - t2) in
      let result_dict := dict_set result_dict "cadence" (60 / (t4 / 2)) in
      _create_result_from_dict result_dict
  end.

End TemporalFeatures.

(* ================================================================== *)
(** * Markers, gaitalytics.utils.linalg and SpatialFeatures *)
(* ================================================================== *)

Module Mocap.

Inductive MappedMarkers : Type :=
| L_HEEL | R_HEEL | L_ANKLE | R_ANKLE
| L_META_2 | R_META_2 | L_META_5 | R_META_5 | XCOM.

(** A point or vector over the [axis] dimension [x, y, z]. *)
Record Vec3 : Type := mkVec3 { vx : float; vy : float; vz : float }.

(** One time sample of a marker; a marker trajectory is its samples in the
    order of the time coordinate. *)
Record Sample : Type := mkSample { at_time : float; pos : Vec3 }.

Definition Marker : Type := list Sample.

(** [marker.sel(axis='z')]. *)
Definition sel_z (m : Marker) : list float := map (fun s => vz (pos s)) m.

(** [marker.sel(time=slice(start, stop))] on an increasing time coordinate. *)
Definition sel_slice (start stop : float) (m : Marker) : Marker :=
  filter (fun s => in_slice start stop (at_time s)) m.

Definition distance_to (t : float) (s : Sample) : float :=
  PrimFloat.abs (PrimFloat.sub (at_time s) t).

(** [marker.sel(time=t, method="nearest")] on an increasing time coordinate:
    the sample closest in time, the later one of two equally close; no
    sample at all is a [KeyError]. *)
Fixpoint nearest_from (t : float) (best : Sample) (m : Marker) : Sample :=
  match m with
  | [] => best
  | s :: m' =>
      if PrimFloat.leb (distance_to t s) (distance_to t best)
      then nearest_from t s m' else nearest_from t best m'
  end.

Definition sel_nearest (t : float) (m : Marker) : result Vec3 :=
  match m with
  | [] => Raise (KeyError "time")
  | s :: m' => Ok (pos (nearest_from t s m'))
  end.

End Mocap.

Import Mocap.

Module Linalg.

Open Scope float_scope.

(** Modelled from the spec: the vector primitives of [gaitalytics.utils.linalg]
    (normalize, project point on vector, distance), which are not among the
    sources; the spec names them as pure numeric utilities, with the Euclidean
    norm over the [axis] dimension. *)
Definition dot (a b : Vec3) : float := vx a * vx b + vy a * vy b + vz a * vz b.

Definition norm (a : Vec3) : float := PrimFloat.sqrt (dot a a).

Definition scale (a : Vec3) (k : float) : Vec3 := mkVec3 (vx a * k) (vy a * k) (vz a * k).

Definition vsub (a b : Vec3) : Vec3 := mkVec3 (vx a - vx b) (vy a - vy b) (vz a - vz b).

Definition normalize_vector (v : Vec3) : Vec3 :=
  mkVec3 (vx v / norm v) (vy v / norm v) (vz v / norm v).

Definition project_point_on_vector (point vector : Vec3) : Vec3 :=
  scale vector (dot point vector).

Definition calculate_distance (point_a point_b : Vec3) : float :=
  norm (vsub point_b point_a).

End Linalg.

Module SpatialFeatures.

(** What [_find_mtc_index] returns: [np.NaN] or a sample index. *)
Inductive mtc_index : Type :=
| MtcNaN
| MtcAt (i : nat).

Definition np_isnan (v : mtc_index) : bool :=
  match v with MtcNaN => true | MtcAt _ => false end.

(** [array[i]] with what [_find_mtc_index] returned as the index. *)
Definition getitem_at (l : list float) (i : mtc_index) : result float :=
  match i with
  | MtcNaN => Raise (ValueError "cannot convert float NaN to integer")
  | MtcAt n => getitem l n
  end.

(** A list comprehension [[i for i in l if cond(i)]] whose condition can raise. *)
Fixpoint filter_raising (cond : nat -> result bool) (l : list nat) : result (list nat) :=
  match l with
  | [] => Ok []
  | i :: l' =>
      b <- cond i ;;
      rest <- filter_raising cond l' ;;
      Ok (if b then i :: rest else rest)
  end.

(** [(a + b) / 2] on two numpy vectors of one shape. *)
Definition mean_of_two (a b : list float) : result (list float) :=
  if (length a =? length b)%nat
  then Ok (map (fun p => PrimFloat.div (PrimFloat.add (fst p) (snd p)) 2%float) (combine a b))
  else Raise (ValueError "operands could not be broadcast together").

Section WithCollaborators.

(** [mocap.get_marker_data] and [mocap.get_progression_vector] for the
    calculator's mapping configuration. *)
Variable get_marker_data : Trial -> MappedMarkers -> Marker.
Variable get_progression_vector : Trial -> Vec3.

(** [linalg.calculate_speed_norm], [np.quantile] and
    [math.find_local_minimas]. *)
Variable calculate_speed_norm : Marker -> list float.
Variable np_quantile : list float -> float -> result float.
Variable find_local_minimas : list float -> list nat.

Definition _calculate_step_length (trial : Trial) (ipsi_marker contra_marker : MappedMarkers)
  : result (list (string * float)) :=
  event_times <- get_event_times (events trial) ;;
  let '(_, _, _, _, t_last) := event_times in
  ipsi_heel <- sel_nearest t_last (get_marker_data trial ipsi_marker) ;;
  contra_heel <- sel_nearest t_last (get_marker_data trial contra_marker) ;;
  let progress_axis := get_progression_vector trial in
  let progress_axis := Linalg.normalize_vector progress_axis in
  let projected_ipsi := Linalg.project_point_on_vector ipsi_heel progress_axis in
  let projected_contra := Linalg.project_point_on_vector contra_heel progress_axis in
  let distance := Linalg.calculate_distance projected_ipsi projected_contra in
  Ok [("step_length", distance)].

Definition _find_mtc_index (toe_position heel_position : Marker)
  (toes_vel : list float) (toes_vel_up_quart : float) : result mtc_index :=
  let mtc_i := find_local_minimas (sel_z toe_position) in
  mtc_i <- filter_raising
    (fun i => v <- getitem toes_vel i ;; Ok (PrimFloat.leb toes_vel_up_quart v)) mtc_i ;;
  mtc_i <- filter_raising
    (fun i =>
       toe <- getitem (sel_z toe_position) i ;;
       heel <- getitem (sel_z heel_position) i ;;
       Ok (PrimFloat.leb toe heel)) mtc_i ;;
  (* every index left has been read from the toe trajectory above, so the key
     of [min] cannot raise *)
  match min_by (fun i => nth i (sel_z toe_position) nan) mtc_i with
  | None => Ok MtcNaN
  | Some i => Ok (MtcAt i)
  end.

(** The two qualifying conditions of [_find_mtc_index] at sample [i]: the
    averaged toe velocity reaches the threshold, and the toe is not above the
    heel. *)
Definition qualifies (toe_position heel_position : Marker)
  (toes_vel : list float) (toes_vel_up_quart : float) (i : nat) : bool :=
  PrimFloat.leb toes_vel_up_quart (nth i toes_vel nan)
  && PrimFloat.leb (nth i (sel_z toe_position) nan) (nth i (sel_z heel_position) nan).

(** The local minima of the toe's vertical trajectory that qualify. *)
Definition qualifying_minima (toe_position heel_position : Marker)
  (toes_vel : list float) (toes_vel_up_quart : float) : list nat :=
  filter (qualifies toe_position heel_position toes_vel toes_vel_up_quart)
         (find_local_minimas (sel_z toe_position)).

Definition _calculate_minimal_toe_clearance (trial : Trial)
  (ipsi_meta_2_marker ipsi_meta_5_marker ipsi_heel_marker : MappedMarkers)
  : result (list (string * float)) :=
  event_times <- get_event_times (events trial) ;;
  let '(_, _, _, t3, t4) := event_times in
  let ipsi_heel := sel_slice t3 t4 (get_marker_data trial ipsi_heel_marker) in
  let ipsi_meta_2 := sel_slice t3 t4 (get_marker_data trial ipsi_meta_2_marker) in
  let ipsi_meta_5 := sel_slice t3 t4 (get_marker_data trial ipsi_meta_5_marker) in
  toes_vel <- mean_of_two (calculate_speed_norm ipsi_meta_2)
                          (calculate_speed_norm ipsi_meta_5) ;;
  toes_vel_up_quart <- np_quantile toes_vel 0.5%float ;;
  mtc2_i <- _find_mtc_index ipsi_meta_2 ipsi_heel toes_vel toes_vel_up_quart ;;
  mtc5_i <- _find_mtc_index ipsi_meta_5 ipsi_heel toes_vel toes_vel_up_quart ;;
  if np_isnan mtc2_i && np_isnan mtc5_i then
    Ok [("minimal_toe_clearance", nan)]
  else if np_isnan mtc2_i then
    v <- getitem_at (sel_z ipsi_meta_5) mtc5_i ;;
    Ok [("minimal_toe_clearance", v)]
  else if np_isnan mtc5_i then
    v <- getitem_at (sel_z ipsi_meta_2) mtc2_i ;;
    Ok [("minimal_toe_clearance", v)]
  else
    v2 <- getitem_at (sel_z ipsi_meta_2) mtc2_i ;;
    v5 <- getitem_at (sel_z ipsi_meta_5) mtc5_i ;;
    Ok [("minimal_toe_clearance", min2 v2 v5)].

(** [linalg.get_normal_vector], used for the sagittal vector. *)
Variable get_normal_vector : Vec3 -> Vec3 -> Vec3.

Definition _get_sagittal_vector (trial : Trial) : Vec3 :=
  let progression_vector := get_progression_vector trial in
  let vertical_vector := mkVec3 0 0 1 in
  get_normal_vector progression_vector vertical_vector.

Definition _calculate_step_width (trial : Trial) (ipsi_marker contra_marker : MappedMarkers)
  : result (list (string * float)) :=
  event_times <- get_event_times (events trial) ;;
  let '(t_first, _, t_contra_fs, _, t_last) := event_times in
  let contra_heel := get_marker_data trial contra_marker in
  contra_at_fs <- sel_nearest t_contra_fs contra_heel ;;
  contra_at_start <- sel_nearest t_first contra_heel ;;
  let contra_vector := Linalg.vsub contra_at_fs contra_at_start in
  ipsi_heel <- sel_nearest t_last (get_marker_data trial ipsi_marker) ;;
  let norm_vector := Linalg.normalize_vector contra_vector in
  let projected_ipsi := Linalg.project_point_on_vector ipsi_heel norm_vector in
  let distance := Linalg.calculate_distance ipsi_heel projected_ipsi in
  Ok [("step_width", distance)].

Definition _calculate_AP_margin_of_stability (trial : Trial)
  (ipsi_toe_marker contra_toe_marker xcom_marker : MappedMarkers)
  : result (list (string * float)) :=
  event_times <- get_event_times (events trial) ;;
  let '(t_first, _, _, _, _) := event_times in
  ipsi_toe <- sel_nearest t_first (get_marker_data trial ipsi_toe_marker) ;;
  contra_toe <- sel_nearest t_first (get_marker_data trial contra_toe_marker) ;;
  xcom <- sel_nearest t_first (get_marker_data trial xcom_marker) ;;
  let progress_axis := get_progression_vector trial in
  let progress_axis := Linalg.normalize_vector progress_axis in
  let projected_ipsi := Linalg.project_point_on_vector ipsi_toe progress_axis in
  let projected_contra := Linalg.project_point_on_vector contra_toe progress_axis in
  let projected_xcom := Linalg.project_point_on_vector xcom progress_axis in
  let bos_len := Linalg.calculate_distance projected_ipsi projected_contra in
  let xcom_len := Linalg.calculate_distance projected_contra projected_xcom in
  let mos := PrimFloat.sub bos_len xcom_len in
  Ok [("AP_margin_of_stability", mos)].

Definition _calculate_ML_margin_of_stability (trial : Trial)
  (ipsi_ankle_marker contra_ankle_marker xcom_marker : MappedMarkers)
  : result (list (string * float)) :=
  event_times <- get_event_times (events trial) ;;
  let '(t_first, _, _, _, _) := event_times in
  ipsi_ankle <- sel_nearest t_first (get_marker_data trial ipsi_ankle_marker) ;;
  contra_ankle <- sel_nearest t_first (get_marker_data trial contra_ankle_marker) ;;
  xcom <- sel_nearest t_first (get_marker_data trial xcom_marker) ;;
  let sagittal_axis := _get_sagittal_vector trial in
  let sagittal_axis := Linalg.normalize_vector sagittal_axis in
  let projected_ipsi := Linalg.project_point_on_vector ipsi_ankle sagittal_axis in
  let projected_contra := Linalg.project_point_on_vector contra_ankle sagittal_axis in
  let projected_xcom := Linalg.project_point_on_vector xcom sagittal_axis in
  let bos_len := Linalg.calculate_distance projected_contra projected_ipsi in
  let xcom_len := Linalg.calculate_distance projected_contra projected_xcom in
  let mos := PrimFloat.sub bos_len xcom_len in
  Ok [("ML_margin_of_stability", mos)].

(** The marker roles of a cycle: ipsi forefoot (2nd and 5th metatarsal),
    heel and ankle, and contra forefoot and ankle. *)
Record marker_roles : Type := mkRoles {
  ipsi_meta_2_marker : MappedMarkers;
  ipsi_meta_5_marker : MappedMarkers;
  ipsi_heel_marker : MappedMarkers;
  ipsi_ankle_marker : MappedMarkers;
  contra_meta_2_marker : MappedMarkers;
  contra_ankle_marker : MappedMarkers
}.

Definition roles_of_context (context : string) : marker_roles :=
  if String.eqb context "Right"
  then mkRoles R_META_2 R_META_5 R_HEEL R_ANKLE L_META_2 L_ANKLE
  else mkRoles L_META_2 L_META_5 L_HEEL L_ANKLE R_META_2 R_ANKLE.

Definition _calculate (trial : Trial) : result FeatureArray :=
  match events trial with
  | None => Raise (ValueError msg_no_events)
  | Some trial_events =>
      let roles := roles_of_context (Events.attrs_context trial_events) in
      let xcom_marker := XCOM in
      results_dict <- _calculate_step_length trial
                        (ipsi_meta_2_marker roles) (contra_meta_2_marker roles) ;;
      step_width <- _calculate_step_width trial
                      (ipsi_meta_2_marker roles) (contra_meta_2_marker roles) ;;
      let results_dict := dict_update results_dict step_width in
      toe_clearance <- _calculate_minimal_toe_clearance trial
                         (ipsi_meta_2_marker roles) (ipsi_meta_5_marker roles)
                         (ipsi_heel_marker roles) ;;
      let results_dict := dict_update results_dict toe_clearance in
      ap <- _calculate_AP_margin_of_stability trial
              (ipsi_meta_2_marker roles) (contra_meta_2_marker roles) xcom_marker ;;
      let results_dict := dict_update results_dict ap in
      ml <- _calculate_ML_margin_of_stability trial
              (ipsi_ankle_marker roles) (contra_ankle_marker roles) xcom_marker ;;
      let results_dict := dict_update results_dict ml in
      _create_result_from_dict results_dict
  end.

End WithCollaborators.

End SpatialFeatures.

(* ================================================================== *)
(** * Reference collaborators and example cycles *)
(* ================================================================== *)

Module Reference.

Open Scope float_scope.

Definition sum (l : list float) : float := fold_left PrimFloat.add l 0.
Definition count (l : list float) : float := fold_left (fun n _ => n + 1) l 0.

Fixpoint insert (x : float) (l : list float) : list float :=
  match l with
  | [] => [x]
  | y :: l' => if PrimFloat.leb x y then x :: l else y :: insert x l'
  end.

Definition sort (l : list float) : list float := fold_right insert [] l.

Definition median (l : list float) : float :=
  let xs := sort l in
  let n := length xs in
  if Nat.even n then (nth (n / 2 - 1) xs nan + nth (n / 2) xs nan) / 2
  else nth (n / 2) xs nan.

(** numpy's reductions that skip missing samples, with sums taken left to
    right. *)
Definition nanmean (row : list float) : float :=
  let xs := filter TimeSeriesFeatures.not_nan row in sum xs / count xs.

Definition nanmedian (row : list float) : float :=
  median (filter TimeSeriesFeatures.not_nan row).

Definition nanstd (row : list float) : float :=
  let xs := filter TimeSeriesFeatures.not_nan row in
  let m := sum xs / count xs in
  PrimFloat.sqrt (sum (map (fun x => (x - m) * (x - m)) xs) / count xs).

(** numpy's rounding to four decimals, [rint(x * 1e4) / 1e4], for times
    between 0 and 2^52 / 1e4: adding and removing 2^52 rounds to the nearest
    integer, ties to even. *)
Definition round4 (x : float) : float :=
  ((x * 10000 + 0x1p52) - 0x1p52) / 10000.

(** [np.quantile(a, 0.5)]: the median; an empty array has none. *)
Definition np_quantile (a : list float) (q : float) : result float :=
  match a with
  | [] => Raise (IndexError 0 0)
  | _ :: _ => Ok (median a)
  end.

(** Modelled from the spec: [linalg.calculate_speed_norm], the norm of the
    marker's velocity at every sample, here by finite differences over a
    sampling step [dt] of 0.01 (central inside, one-sided at both ends). *)
Definition dt : float := 0x1.47ae147ae147bp-7.

Definition gradient (f : list float) (i : nat) : float :=
  let n := length f in
  let at_ k := nth k f nan in
  if (i =? 0)%nat then (at_ 1%nat - at_ 0%nat) / dt
  else if (i =? n - 1)%nat then (at_ (n - 1)%nat - at_ (n - 2)%nat) / dt
  else (at_ (i + 1)%nat - at_ (i - 1)%nat) / (2 * dt).

Definition calculate_speed_norm (m : Marker) : list float :=
  let xs := map (fun s => vx (pos s)) m in
  let ys := map (fun s => vy (pos s)) m in
  let zs := map (fun s => vz (pos s)) m in
  map (fun i =>
         PrimFloat.sqrt (gradient xs i * gradient xs i + gradient ys i * gradient ys i
                         + gradient zs i * gradient zs i))
      (seq 0 (length m)).

(** Modelled from the spec: [math.find_local_minimas], the indices of the
    samples strictly below both neighbours. *)
Definition find_local_minimas (z : list float) : list nat :=
  filter (fun i =>
            (0 <? i)%nat && (i + 1 <? length z)%nat
            && PrimFloat.ltb (nth i z nan) (nth (i - 1) z nan)
            && PrimFloat.ltb (nth i z nan) (nth (i + 1) z nan))
         (seq 0 (length z)).

(** *** Example event tables *)

Definition row (c l : string) (t : float) : EventRow := mkRow c l t.

(** A regular right cycle. *)
Definition regular_cycle : DataFrame :=
  mkFrame [ row "Right" FOOT_STRIKE 0; row "Left" FOOT_OFF 0.125;
            row "Left" FOOT_STRIKE 0.5; row "Right" FOOT_OFF 0.625;
            row "Right" FOOT_STRIKE 1 ] "Right" 0.

(** Five rows of the right composition whose rows are not in time order. *)
Definition shuffled_cycle : DataFrame :=
  mkFrame [ row "Right" FOOT_STRIKE 1; row "Left" FOOT_OFF 0.125;
            row "Left" FOOT_STRIKE 0.5; row "Right" FOOT_OFF 0.625;
            row "Right" FOOT_STRIKE 0 ] "Right" 1.

(** Rows in time order, right composition, the contra events after the
    closing ipsi foot-strike. *)
Definition late_contra_cycle : DataFrame :=
  mkFrame [ row "Right" FOOT_STRIKE 0; row "Right" FOOT_OFF 0.5;
            row "Right" FOOT_STRIKE 1; row "Left" FOOT_OFF 1.25;
            row "Left" FOOT_STRIKE 1.5 ] "Right" 2.

(** Three ipsi foot-strikes and no ipsi foot-off. *)
Definition three_strikes_cycle : DataFrame :=
  mkFrame [ row "Right" FOOT_STRIKE 0; row "Left" FOOT_OFF 0.125;
            row "Left" FOOT_STRIKE 0.5; row "Right" FOOT_STRIKE 0.625;
            row "Right" FOOT_STRIKE 1 ] "Right" 3.

(** Two contra foot-strikes and no contra foot-off. *)
Definition two_contra_strikes_cycle : DataFrame :=
  mkFrame [ row "Right" FOOT_STRIKE 0; row "Left" FOOT_STRIKE 0.125;
            row "Left" FOOT_STRIKE 0.5; row "Right" FOOT_OFF 0.625;
            row "Right" FOOT_STRIKE 1 ] "Right" 4.

(** Two ipsi and two contra rows. *)
Definition two_plus_two_cycle : DataFrame :=
  mkFrame [ row "Right" FOOT_STRIKE 0; row "Left" FOOT_OFF 0.125;
            row "Left" FOOT_STRIKE 0.5; row "Right" FOOT_STRIKE 1 ] "Right" 5.

(** A right cycle with a stride of 1.2 s (the binary64 value of [1.2]). *)
Definition stride_1_2 : float := 0x1.3333333333333p+0.

Definition stride_1_2_cycle : DataFrame :=
  mkFrame [ row "Right" FOOT_STRIKE 0; row "Left" FOOT_OFF 0.125;
            row "Left" FOOT_STRIKE 0.5; row "Right" FOOT_OFF 0.75;
            row "Right" FOOT_STRIKE stride_1_2 ] "Right" 6.

Definition stride_1_2_trial : Trial := mkTrial (Some stride_1_2_cycle) [].

(** A trial whose only context holds no cycle, and a calculator that always
    succeeds. *)
Definition empty_context_trial : TrialCycles := [("Right", [])].

Definition constant_calculator (cycle : Trial) : result FeatureArray :=
  Ok (mkFeatureArray ["one"] [1]).

(** One analysis channel over five samples, with the events of the regular
    cycle: the ipsi foot-off at 0.625 splits the samples 3 + 2. *)
Definition hip_analysis : ChannelArray :=
  mkChannelArray ["hip"] [0; 0.25; 0.5; 0.75; 1] [[1; 3; 2; 5; 4]] "Right".

Definition hip_trial : Trial := mkTrial (Some regular_cycle) [(ANALYSIS, hip_analysis)].

(** Two distinct feature labels and two distinct channel labels whose
    combined labels collide. *)
Definition colliding_array : FeatureChannelArray :=
  mkFeatureChannelArray ["c"; "b_c"] ["a"; "a_b"] [[1; 2]; [3; 4]].

(** Two features of three channels. *)
Definition small_array : FeatureChannelArray :=
  mkFeatureChannelArray ["min"; "max"] ["hip"; "knee"; "ankle"]
    [[1; 2; 3]; [4; 5; 6]].

(** A right cycle of three samples: at the closing foot-strike the ipsi
    forefoot marker is at the origin and the contra one at (1, 0, 0); the
    progression vector is (1, 0, 0). *)
Definition origin : Vec3 := mkVec3 0 0 0.
Definition unit_x : Vec3 := mkVec3 1 0 0.

Definition step_markers (trial : Trial) (marker : MappedMarkers) : Marker :=
  match marker with
  | R_META_2 =>
      [mkSample 0 (mkVec3 (-0.5) 0.25 0); mkSample 0.5 (mkVec3 (-0.25) 0.25 0.125);
       mkSample 1 origin]
  | L_META_2 =>
      [mkSample 0 (mkVec3 0.25 (-0.25) 0); mkSample 0.5 (mkVec3 0.5 (-0.25) 0);
       mkSample 1 unit_x]
  | _ => []
  end.

Definition step_progression (trial : Trial) : Vec3 := unit_x.

Definition step_trial : Trial := mkTrial (Some regular_cycle) [].

(** A right cycle whose swing window (0.625 to 1) holds five samples of the
    heel and of the two forefoot markers. *)
Definition swing_sample (t x z : float) : Sample := mkSample t (mkVec3 x 0 z).

Definition swing_markers (trial : Trial) (marker : MappedMarkers) : Marker :=
  match marker with
  | R_HEEL =>
      [swing_sample 0.5 0 1; swing_sample 0.625 0 4; swing_sample 0.75 0 4;
       swing_sample 0.875 0 4; swing_sample 1 0 4; swing_sample 1.125 0 1]
  | R_META_2 =>
      [swing_sample 0.5 0 1; swing_sample 0.625 0 3; swing_sample 0.75 8 2;
       swing_sample 0.875 16 3; swing_sample 1 16 3; swing_sample 1.125 16 1]
  | R_META_5 =>
      [swing_sample 0.5 0 1; swing_sample 0.625 0 5; swing_sample 0.75 8 6;
       swing_sample 0.875 16 7; swing_sample 1 16 8; swing_sample 1.125 16 1]
  | _ => []
  end.


(** The regular right cycle with every time but the opening foot-strike kept. *)
Definition shifted_start_cycle : DataFrame :=
  mkFrame [ row "Right" FOOT_STRIKE 0.0625; row "Left" FOOT_OFF 0.125;
            row "Left" FOOT_STRIKE 0.5; row "Right" FOOT_OFF 0.625;
            row "Right" FOOT_STRIKE 1 ] "Right" 0.

Definition shifted_start_trial : Trial := mkTrial (Some shifted_start_cycle) [].

(** Modelled from the spec: [linalg.get_normal_vector], the vector orthogonal
    to its two arguments (their cross product). *)
Definition get_normal_vector (a b : Vec3) : Vec3 :=
  mkVec3 (vy a * vz b - vz a * vy b) (vz a * vx b - vx a * vz b)
         (vx a * vy b - vy a * vx b).

(** Markers for every role: the swing trajectories, and the heel's for the
    roles they leave out. *)
Definition full_markers (trial : Trial) (marker : MappedMarkers) : Marker :=
  match swing_markers trial marker with
  | [] => swing_markers trial R_HEEL
  | m => m
  end.

Definition spatial_example : result FeatureArray :=
  SpatialFeatures._calculate full_markers step_progression calculate_speed_norm
    np_quantile find_local_minimas get_normal_vector step_trial.

Definition spatial_example_result : FeatureArray :=
  Eval vm_compute in
    match spatial_example with
    | Ok a => a
    | Raise _ => mkFeatureArray [] []
    end.

Definition two_plus_two_trial : Trial := mkTrial (Some two_plus_two_cycle) [].



(** A cycle with analysis data and no event table. *)
Definition hip_trial_no_events : Trial := mkTrial None [(ANALYSIS, hip_analysis)].

End Reference.

(* ================================================================== *)
(** * Order facts on binary64 floats *)
(* ================================================================== *)

Module F64.

Open Scope float_scope.

(** A float that compares with itself is not a NaN. *)
Definition comparable (x : float) : Prop := (x <=? x) = true.

Lemma SFcompare_antisym (a b : spec_float) :
  SFcompare b a = option_map CompOpp (SFcompare a b).
Proof.
  destruct a as [sa|sa| |sa ma ea], b as [sb|sb| |sb mb eb]; simpl;
    try reflexivity; try (destruct sa; reflexivity); try (destruct sb; reflexivity);
    try (destruct sa, sb; reflexivity).
  destruct sa, sb; simpl; try reflexivity;
    rewrite (Z.compare_antisym ea eb);
    destruct (ea ?= eb)%Z; simpl; try reflexivity;
    change (Pos.compare_cont Eq mb ma) with (Pos.compare mb ma);
    change (Pos.compare_cont Eq ma mb) with (Pos.compare ma mb);
    rewrite (Pos.compare_antisym ma mb); destruct (ma ?= mb)%positive; reflexivity.
Qed.

Lemma SFcompare_lt_trans (a b c : spec_float) :
  SFcompare a b = Some Lt -> SFcompare b c = Some Lt -> SFcompare a c = Some Lt.
Proof.
  destruct a as [sa|sa| |sa ma ea], b as [sb|sb| |sb mb eb], c as [sc|sc| |sc mc ec];
    simpl; try discriminate; try (destruct sa; discriminate);
    try (destruct sa, sb; simpl; congruence);
    try (destruct sb, sc; simpl; congruence);
    try (destruct sa, sc; simpl; congruence);
    try (destruct sa, sb, sc; simpl; congruence).
  change (Pos.compare_cont Eq) with Pos.compare.
  destruct sa, sb, sc; simpl; try congruence;
    destruct (Z.compare_spec ea eb), (Z.compare_spec eb ec), (Z.compare_spec ea ec);
    try congruence; try lia; subst;
    destruct (Pos.compare_spec ma mb), (Pos.compare_spec mb mc), (Pos.compare_spec ma mc);
    simpl; try congruence; try lia.
Qed.

Lemma SFcompare_lt_eq_trans (a b c : spec_float) :
  SFcompare a b = Some Lt -> SFcompare b c = Some Eq -> SFcompare a c = Some Lt.
Proof.
  destruct a as [sa|sa| |sa ma ea], b as [sb|sb| |sb mb eb], c as [sc|sc| |sc mc ec];
    simpl; try discriminate; try (destruct sa; discriminate);
    try (destruct sa, sb; simpl; congruence);
    try (destruct sb, sc; simpl; congruence);
    try (destruct sa, sc; simpl; congruence);
    try (destruct sa, sb, sc; simpl; congruence).
  change (Pos.compare_cont Eq) with Pos.compare.
  destruct sa, sb, sc; simpl; try congruence;
    destruct (Z.compare_spec ea eb), (Z.compare_spec eb ec), (Z.compare_spec ea ec);
    try congruence; try lia; subst;
    destruct (Pos.compare_spec ma mb), (Pos.compare_spec mb mc), (Pos.compare_spec ma mc);
    simpl; try congruence; try lia.
Qed.

Lemma SFcompare_self (a b : spec_float) (c : comparison) :
  SFcompare a b = Some c -> SFcompare a a = Some Eq /\ SFcompare b b = Some Eq.
Proof.
  destruct a as [sa|sa| |sa ma ea], b as [sb|sb| |sb mb eb]; simpl; try discriminate;
    intros _; split; try reflexivity;
    try (destruct sa; reflexivity); try (destruct sb; reflexivity);
    change (Pos.compare_cont Eq) with Pos.compare;
    try (destruct sa; rewrite Z.compare_refl, Pos.compare_refl; reflexivity);
    try (destruct sb; rewrite Z.compare_refl, Pos.compare_refl; reflexivity).
Qed.

Lemma SFcompare_total (a b : spec_float) :
  SFcompare a a = Some Eq -> SFcompare b b = Some Eq ->
  exists c, SFcompare a b = Some c.
Proof.
  destruct a as [sa|sa| |sa ma ea], b as [sb|sb| |sb mb eb]; simpl; try discriminate;
    intros _ _; eexists; reflexivity.
Qed.

Lemma SFcompare_eq_lt_trans (a b c : spec_float) :
  SFcompare a b = Some Eq -> SFcompare b c = Some Lt -> SFcompare a c = Some Lt.
Proof.
  destruct a as [sa|sa| |sa ma ea], b as [sb|sb| |sb mb eb], c as [sc|sc| |sc mc ec];
    simpl; try discriminate; try (destruct sa; discriminate);
    try (destruct sa, sb; simpl; congruence);
    try (destruct sb, sc; simpl; congruence);
    try (destruct sa, sc; simpl; congruence);
    try (destruct sa, sb, sc; simpl; congruence).
  change (Pos.compare_cont Eq) with Pos.compare.
  destruct sa, sb, sc; simpl; try congruence;
    destruct (Z.compare_spec ea eb), (Z.compare_spec eb ec), (Z.compare_spec ea ec);
    try congruence; try lia; subst;
    destruct (Pos.compare_spec ma mb), (Pos.compare_spec mb mc), (Pos.compare_spec ma mc);
    simpl; try congruence; try lia.
Qed.

Lemma SFcompare_eq_trans (a b c : spec_float) :
  SFcompare a b = Some Eq -> SFcompare b c = Some Eq -> SFcompare a c = Some Eq.
Proof.
  destruct a as [sa|sa| |sa ma ea], b as [sb|sb| |sb mb eb], c as [sc|sc| |sc mc ec];
    simpl; try discriminate; try (destruct sa; discriminate);
    try (destruct sa, sb; simpl; congruence);
    try (destruct sb, sc; simpl; congruence);
    try (destruct sa, sc; simpl; congruence);
    try (destruct sa, sb, sc; simpl; congruence).
  change (Pos.compare_cont Eq) with Pos.compare.
  destruct sa, sb, sc; simpl; try congruence;
    destruct (Z.compare_spec ea eb), (Z.compare_spec eb ec), (Z.compare_spec ea ec);
    try congruence; try lia; subst;
    destruct (Pos.compare_spec ma mb), (Pos.compare_spec mb mc), (Pos.compare_spec ma mc);
    simpl; try congruence; try lia.
Qed.

Lemma leb_trans (a b c : float) :
  (a <=? b) = true -> (b <=? c) = true -> (a <=? c) = true.
Proof.
  rewrite !leb_spec. unfold SFleb.
  destruct (SFcompare (Prim2SF a) (Prim2SF b)) as [[]|] eqn:Eab; try discriminate;
    destruct (SFcompare (Prim2SF b) (Prim2SF c)) as [[]|] eqn:Ebc; try discriminate;
    intros _ _.
  - rewrite (SFcompare_eq_trans _ _ _ Eab Ebc). reflexivity.
  - rewrite (SFcompare_eq_lt_trans _ _ _ Eab Ebc). reflexivity.
  - rewrite (SFcompare_lt_eq_trans _ _ _ Eab Ebc). reflexivity.
  - rewrite (SFcompare_lt_trans _ _ _ Eab Ebc). reflexivity.
Qed.

Lemma ltb_leb (a b : float) : (a <? b) = true -> (a <=? b) = true.
Proof.
  rewrite ltb_spec, leb_spec. unfold SFltb, SFleb.
  destruct (SFcompare (Prim2SF a) (Prim2SF b)) as [[]|]; congruence.
Qed.

Lemma leb_comparable (x y : float) :
  (x <=? y) = true -> comparable x /\ comparable y.
Proof.
  unfold comparable. rewrite !leb_spec. unfold SFleb.
  destruct (SFcompare (Prim2SF x) (Prim2SF y)) as [c|] eqn:E; [|discriminate].
  destruct (SFcompare_self _ _ E) as [Hx Hy]. rewrite Hx, Hy. auto.
Qed.

Lemma ltb_leb_trans (a b c : float) :
  (a <? b) = true -> (b <=? c) = true -> (a <=? c) = true.
Proof.
  rewrite ltb_spec, !leb_spec. unfold SFltb, SFleb.
  destruct (SFcompare (Prim2SF a) (Prim2SF b)) as [[]|] eqn:Eab; try discriminate.
  destruct (SFcompare (Prim2SF b) (Prim2SF c)) as [[]|] eqn:Ebc; try discriminate; intros _ _.
  - rewrite (SFcompare_lt_eq_trans _ _ _ Eab Ebc). reflexivity.
  - rewrite (SFcompare_lt_trans _ _ _ Eab Ebc). reflexivity.
Qed.

Lemma not_ltb_leb (a b : float) :
  comparable a -> comparable b -> (a <? b) = false -> (b <=? a) = true.
Proof.
  unfold comparable. rewrite ltb_spec, !leb_spec. unfold SFltb, SFleb.
  intros Ha Hb.
  assert (Ha' : SFcompare (Prim2SF a) (Prim2SF a) = Some Eq).
  { destruct (SFcompare (Prim2SF a) (Prim2SF a)) as [c|] eqn:E; [|discriminate].
    destruct (SFcompare_self _ _ E) as [H _]. congruence. }
  assert (Hb' : SFcompare (Prim2SF b) (Prim2SF b) = Some Eq).
  { destruct (SFcompare (Prim2SF b) (Prim2SF b)) as [c|] eqn:E; [|discriminate].
    destruct (SFcompare_self _ _ E) as [H _]. congruence. }
  destruct (SFcompare_total _ _ Ha' Hb') as [c Hc].
  rewrite (SFcompare_antisym (Prim2SF a) (Prim2SF b)), Hc.
  destruct c; simpl; congruence.
Qed.

End F64.

(* ================================================================== *)
(** * Properties of get_event_times *)
(* ================================================================== *)

Import Reference.

Lemma startswith_app (p s : string) : startswith (p ++ s)%string p = true.
Proof.
  induction p as [|a p IH]; simpl; [reflexivity|].
  rewrite Ascii.eqb_refl. exact IH.
Qed.

Lemma missing_message_kind (ev : DataFrame) :
  is_MissingEventsError (ValueError (msg_missing ev)) = true
  /\ is_EventSequenceError (ValueError (msg_missing ev)) = false.
Proof.
  split; [|reflexivity].
  unfold is_MissingEventsError, msg_missing.
  rewrite startswith_app. apply orb_true_r.
Qed.

Lemma sequence_message_kind (ev : DataFrame) :
  is_EventSequenceError (ValueError (msg_sequence ev)) = true
  /\ is_MissingEventsError (ValueError (msg_sequence ev)) = false.
Proof.
  split; [|reflexivity].
  unfold is_EventSequenceError, msg_sequence. apply startswith_app.
Qed.

Lemma failure_kinds_disjoint (e : exn) :
  is_MissingEventsError e && is_EventSequenceError e = false.
Proof.
  destruct e as [msg| | |]; try reflexivity.
  destruct msg as [|a m]; [reflexivity|].
  unfold is_MissingEventsError, is_EventSequenceError, msg_no_events.
  cbn [startswith String.eqb].
  destruct (Ascii.eqb_spec "E" a) as [<-|]; [reflexivity|].
  apply andb_false_r.
Qed.

Lemma cardinality_ok_lengths (ev : DataFrame) :
  cardinality_ok ev = true <->
  length (ipsi_rows ev) = 3%nat /\ length (contra_rows ev) = 2%nat.
Proof.
  unfold cardinality_ok. rewrite andb_true_iff, !Nat.eqb_eq. reflexivity.
Qed.

Lemma ipsi_contra_partition (ev : DataFrame) :
  (length (ipsi_rows ev) + length (contra_rows ev))%nat = length (rows ev).
Proof. unfold ipsi_rows, contra_rows. apply filter_length. Qed.

Lemma get_event_times_validated (ev : DataFrame) :
  cardinality_ok ev = true ->
  get_event_times (Some ev) = positional_reads ev.
Proof.
  intros H. apply cardinality_ok_lengths in H. destruct H as [Hi Hc].
  pose proof (ipsi_contra_partition ev) as Hp.
  unfold get_event_times, positional_reads.
  replace (length (rows ev) <? 3)%nat with false
    by (symmetry; apply Nat.ltb_ge; lia).
  rewrite Hi, Hc. reflexivity.
Qed.

Lemma getitem_ok_or_index_error {A : Type} (l : list A) (i : nat) :
  (exists v, getitem l i = Ok v) \/ getitem l i = Raise (IndexError i (length l)).
Proof.
  unfold getitem. destruct (nth_error l i); [left; eauto | right; reflexivity].
Qed.

Lemma positional_reads_no_value_error (ev : DataFrame) :
  (exists ts, positional_reads ev = Ok ts)
  \/ (exists i n, positional_reads ev = Raise (IndexError i n)).
Proof.
  unfold positional_reads.
  repeat match goal with
  | |- context [ Py.bind (getitem ?l ?i) _ ] =>
      destruct (getitem_ok_or_index_error l i) as [[? ->] | ->];
      [ cbn [Py.bind] | right; do 2 eexists; reflexivity ]
  end.
  left. eexists. reflexivity.
Qed.

(** C3: [get_event_times] fails with the missing-events kind exactly when the
    table is absent or has fewer than 3 rows, and with the event-sequence kind
    exactly when the table has at least 3 rows but not 3 ipsi rows and 2 contra
    rows; no exception is of both kinds, so a caller can tell them apart.  Both
    kinds are [ValueError]s and are told apart by their message. *)
Theorem get_event_times_failure_kinds (trial_events : option DataFrame) :
  (fails_with is_MissingEventsError (get_event_times trial_events) = true <->
     (trial_events = None
      \/ exists ev, trial_events = Some ev /\ (length (rows ev) < 3)%nat))
  /\ (fails_with is_EventSequenceError (get_event_times trial_events) = true <->
     (exists ev, trial_events = Some ev /\ (3 <= length (rows ev))%nat
        /\ (length (ipsi_rows ev) <> 3%nat \/ length (contra_rows ev) <> 2%nat)))
  /\ (forall e, is_MissingEventsError e && is_EventSequenceError e = false).
Proof.
  split; [|split; [|exact failure_kinds_disjoint]].
  - destruct trial_events as [ev|]; [|split; [left; reflexivity | reflexivity]].
    split.
    + intros H. right. exists ev. split; [reflexivity|].
      destruct (Nat.ltb_spec (length (rows ev)) 3) as [Hlt|Hge]; [exact Hlt|exfalso].
      destruct (cardinality_ok ev) eqn:Hc.
      * rewrite (get_event_times_validated _ Hc) in H.
        destruct (positional_reads_no_value_error ev) as [[ts E]|[i [n E]]];
          rewrite E in H; discriminate.
      * unfold get_event_times in H.
        replace (length (rows ev) <? 3)%nat with false in H
          by (symmetry; apply Nat.ltb_ge; lia).
        unfold cardinality_ok in Hc. cbv zeta in H.
        destruct (length (ipsi_rows ev) =? 3)%nat; cbn [negb] in H.
        -- cbn [andb] in Hc. rewrite Hc in H. cbn [negb fails_with] in H.
           rewrite (proj2 (sequence_message_kind ev)) in H. discriminate.
        -- cbn [fails_with] in H.
           rewrite (proj2 (sequence_message_kind ev)) in H. discriminate.
    + intros [H|[ev' [H Hlt]]]; [discriminate|]. injection H as <-.
      unfold get_event_times.
      replace (length (rows ev) <? 3)%nat with true
        by (symmetry; apply Nat.ltb_lt; lia).
      cbn [fails_with]. apply missing_message_kind.
  - destruct trial_events as [ev|].
    2:{ split; [discriminate | intros [ev [H _]]; discriminate]. }
    split.
    + intros H. exists ev. split; [reflexivity|].
      destruct (Nat.ltb_spec (length (rows ev)) 3) as [Hlt|Hge].
      * exfalso. unfold get_event_times in H.
        replace (length (rows ev) <? 3)%nat with true in H
          by (symmetry; apply Nat.ltb_lt; lia).
        cbn [fails_with] in H.
        rewrite (proj2 (missing_message_kind ev)) in H. discriminate.
      * split; [exact Hge|].
        destruct (cardinality_ok ev) eqn:Hc.
        -- exfalso. rewrite (get_event_times_validated _ Hc) in H.
           destruct (positional_reads_no_value_error ev) as [[ts E]|[i [n E]]];
             rewrite E in H; discriminate.
        -- unfold cardinality_ok in Hc. apply andb_false_iff in Hc.
           rewrite !Nat.eqb_neq in Hc. exact Hc.
    + intros [ev' [H [Hge Hbad]]]. injection H as <-.
      unfold get_event_times.
      replace (length (rows ev) <? 3)%nat with false
        by (symmetry; apply Nat.ltb_ge; lia).
      cbv zeta.
      destruct (Nat.eqb_spec (length (ipsi_rows ev)) 3) as [Hi|Hi]; cbn [negb].
      * destruct (Nat.eqb_spec (length (contra_rows ev)) 2) as [Hc|Hc]; cbn [negb].
        -- destruct Hbad; contradiction.
        -- cbn [fails_with]. apply sequence_message_kind.
      * cbn [fails_with]. apply sequence_message_kind.
Qed.

Lemma strike_off_disjoint (rs : list EventRow) :
  (length (with_label FOOT_STRIKE rs) + length (with_label FOOT_OFF rs)
   <= length rs)%nat.
Proof.
  induction rs as [|r rs IH]; simpl; [lia|].
  destruct (String.eqb_spec (label r) FOOT_STRIKE) as [Hs|Hs];
    destruct (String.eqb_spec (label r) FOOT_OFF) as [Ho|Ho]; simpl; try lia.
  rewrite Hs in Ho. discriminate.
Qed.

Lemma getitem_times_length (rs : list EventRow) (i : nat) :
  (length rs <= i)%nat -> getitem (times rs) i = Raise (IndexError i (length rs)).
Proof.
  intros H. unfold getitem, times.
  rewrite (proj2 (nth_error_None (map time rs) i)) by (rewrite length_map; lia).
  rewrite length_map. reflexivity.
Qed.

Lemma getitem_Ok_lt {A : Type} (l : list A) (i : nat) (v : A) :
  getitem l i = Ok v -> (i < length l)%nat /\ nth_error l i = Some v.
Proof.
  unfold getitem. destruct (nth_error l i) eqn:E; [|discriminate].
  intros H. injection H as <-. split; [|reflexivity].
  apply nth_error_Some. congruence.
Qed.

(** Once the cardinality validation has passed, the positional reads succeed
    exactly on the right label composition. *)
Lemma positional_reads_ok_labels (ev : DataFrame) (ts : event_times) :
  cardinality_ok ev = true -> positional_reads ev = Ok ts -> labels_ok ev = true.
Proof.
  intros Hc. apply cardinality_ok_lengths in Hc. destruct Hc as [Hi Hc].
  pose proof (strike_off_disjoint (ipsi_rows ev)) as Di.
  pose proof (strike_off_disjoint (contra_rows ev)) as Dc.
  unfold positional_reads. cbv zeta.
  destruct (getitem (times (with_label FOOT_STRIKE (ipsi_rows ev))) 0) eqn:E0;
    [|discriminate]. cbn [Py.bind].
  destruct (getitem (times (with_label FOOT_STRIKE (ipsi_rows ev))) 1) eqn:E1;
    [|discriminate]. cbn [Py.bind].
  destruct (getitem (times (with_label FOOT_OFF (ipsi_rows ev))) 0) eqn:E2;
    [|discriminate]. cbn [Py.bind].
  destruct (getitem (times (with_label FOOT_STRIKE (contra_rows ev))) 0) eqn:E3;
    [|discriminate]. cbn [Py.bind].
  destruct (getitem (times (with_label FOOT_OFF (contra_rows ev))) 0) eqn:E4;
    [|discriminate]. intros _.
  apply getitem_Ok_lt in E1, E2, E3, E4.
  unfold times in E1, E2, E3, E4. rewrite length_map in E1, E2, E3, E4.
  unfold labels_ok. rewrite !andb_true_iff, !Nat.eqb_eq. lia.
Qed.

Lemma positional_reads_bad_labels (ev : DataFrame) :
  cardinality_ok ev = true -> labels_ok ev = false ->
  exists i n, get_event_times (Some ev) = Raise (IndexError i n).
Proof.
  intros Hc Hl. rewrite (get_event_times_validated _ Hc).
  destruct (positional_reads_no_value_error ev) as [[ts E]|H]; [|exact H].
  rewrite (positional_reads_ok_labels _ Hc E) in Hl. discriminate.
Qed.

Lemma length_two {A : Type} (l : list A) :
  length l = 2%nat -> exists a b, l = [a; b].
Proof.
  destruct l as [|a [|b [|c l]]]; try discriminate. intros _. eauto.
Qed.

Lemma length_one {A : Type} (l : list A) :
  length l = 1%nat -> exists a, l = [a].
Proof.
  destruct l as [|a [|b l]]; try discriminate. intros _. eauto.
Qed.

Lemma StronglySorted_filter {A : Type} (R : A -> A -> Prop) (f : A -> bool) (l : list A) :
  StronglySorted R l -> StronglySorted R (filter f l).
Proof.
  induction 1 as [|a l Hs IH Hall]; simpl; [constructor|].
  destruct (f a); [|exact IH].
  constructor; [exact IH|].
  rewrite Forall_forall in *. intros x Hx. apply filter_In in Hx. apply Hall, Hx.
Qed.

(** C1 (as amended): for every event table that passes the cardinality
    validation and holds two ipsi foot-strikes, one ipsi foot-off, one contra
    foot-strike and one contra foot-off, [get_event_times] returns exactly five
    timestamps, read in the table's row order: the first and the second ipsi
    foot-strike rows give the cycle start and end, and the single rows give the
    three inner events.  No order among the five is enforced; when the rows of
    the table are in non-decreasing time order, the start is not after the
    end. *)
Theorem get_event_times_row_order (ev : DataFrame) :
  cardinality_ok ev = true -> labels_ok ev = true ->
  exists t0 t1 t2 t3 t4 : float,
    get_event_times (Some ev) = Ok (t0, t1, t2, t3, t4)
    /\ times (with_label FOOT_STRIKE (ipsi_rows ev)) = [t0; t4]
    /\ times (with_label FOOT_OFF (ipsi_rows ev)) = [t3]
    /\ times (with_label FOOT_STRIKE (contra_rows ev)) = [t2]
    /\ times (with_label FOOT_OFF (contra_rows ev)) = [t1]
    /\ (StronglySorted time_le (rows ev) -> PrimFloat.leb t0 t4 = true).
Proof.
  intros Hc Hl. rewrite (get_event_times_validated _ Hc).
  unfold labels_ok in Hl. rewrite !andb_true_iff, !Nat.eqb_eq in Hl.
  destruct Hl as [[[H1 H2] H3] H4].
  destruct (length_two _ H1) as [r0 [r4 E1]].
  destruct (length_one _ H2) as [r3 E2].
  destruct (length_one _ H3) as [r2 E3].
  destruct (length_one _ H4) as [r1 E4].
  exists (time r0), (time r1), (time r2), (time r3), (time r4).
  unfold positional_reads. rewrite E1, E2, E3, E4.
  repeat split.
  intros Hs.
  assert (Hs' : StronglySorted time_le (with_label FOOT_STRIKE (ipsi_rows ev))).
  { unfold with_label, ipsi_rows. do 2 apply StronglySorted_filter. exact Hs. }
  rewrite E1 in Hs'. inversion Hs' as [|? ? _ Hall]; subst.
  inversion Hall; subst. assumption.
Qed.

Lemma get_event_times_row_order_witness :
  exists t0 t1 t2 t3 t4 : float,
    get_event_times (Some regular_cycle) = Ok (t0, t1, t2, t3, t4)
    /\ times (with_label FOOT_STRIKE (ipsi_rows regular_cycle)) = [t0; t4]
    /\ times (with_label FOOT_OFF (ipsi_rows regular_cycle)) = [t3]
    /\ times (with_label FOOT_STRIKE (contra_rows regular_cycle)) = [t2]
    /\ times (with_label FOOT_OFF (contra_rows regular_cycle)) = [t1]
    /\ (StronglySorted time_le (rows regular_cycle) -> PrimFloat.leb t0 t4 = true).
Proof.
  apply (get_event_times_row_order regular_cycle); reflexivity.
Defined.

(** C1 (as stated) fails: a table with three ipsi and two contra rows of the
    right labels whose rows are not in time order yields a start after the
    end, and a table in time order whose contra events come after the closing
    foot-strike yields inner events outside the ipsi bracket. *)
Lemma get_event_times_not_ordered :
  (cardinality_ok shuffled_cycle = true
   /\ labels_ok shuffled_cycle = true
   /\ get_event_times (Some shuffled_cycle) = Ok (1, 0.125, 0.5, 0.625, 0)%float
   /\ PrimFloat.ltb 0 1 = true
   /\ non_decreasing (1, 0.125, 0.5, 0.625, 0)%float = false
   /\ bracketed (1, 0.125, 0.5, 0.625, 0)%float = false)
  /\ (cardinality_ok late_contra_cycle = true
   /\ labels_ok late_contra_cycle = true
   /\ forallb (fun t => PrimFloat.leb (fst t) (snd t))
        (combine (times (rows late_contra_cycle))
                 (tl (times (rows late_contra_cycle)))) = true
   /\ get_event_times (Some late_contra_cycle) = Ok (0, 1.25, 1.5, 0.5, 1)%float
   /\ non_decreasing (0, 1.25, 1.5, 0.5, 1)%float = false
   /\ bracketed (0, 1.25, 1.5, 0.5, 1)%float = false).
Proof.
  repeat split; vm_compute; reflexivity.
Qed.

(** C9: there are event tables that pass the cardinality validation with a
    wrong label composition (three ipsi foot-strikes and no ipsi foot-off; two
    contra foot-strikes and no contra foot-off) on which [get_event_times]
    fails with an out-of-bounds [IndexError], not with the event-sequence
    error; and whenever a table passes the cardinality validation with a wrong
    label composition the failure is an [IndexError]: the labels inside the
    partitions are never checked before the positional reads. *)
Theorem label_composition_unchecked :
  (cardinality_ok three_strikes_cycle = true
   /\ times (with_label FOOT_OFF (ipsi_rows three_strikes_cycle)) = []
   /\ get_event_times (Some three_strikes_cycle) = Raise (IndexError 0 0)
   /\ fails_with is_EventSequenceError
        (get_event_times (Some three_strikes_cycle)) = false)
  /\ (cardinality_ok two_contra_strikes_cycle = true
   /\ times (with_label FOOT_OFF (contra_rows two_contra_strikes_cycle)) = []
   /\ get_event_times (Some two_contra_strikes_cycle) = Raise (IndexError 0 0)
   /\ fails_with is_EventSequenceError
        (get_event_times (Some two_contra_strikes_cycle)) = false)
  /\ (forall ev, cardinality_ok ev = true -> labels_ok ev = false ->
        exists i n, get_event_times (Some ev) = Raise (IndexError i n)).
Proof.
  split; [repeat split; vm_compute; reflexivity|].
  split; [repeat split; vm_compute; reflexivity|].
  exact positional_reads_bad_labels.
Qed.

(* ================================================================== *)
(** * TemporalFeatures *)
(* ================================================================== *)

Section Temporal.

Open Scope float_scope.

(** C4: for every cycle whose event times are (t0, t1, t2, t3, t4),
    [TemporalFeatures._calculate] returns, in this order, double_support =
    (contra_fo + (ipsi_fo - contra_fs)) / t4, single_support = (contra_fs -
    contra_fo) / t4, foot_off = ipsi_fo / t4, opposite_foot_off = contra_fo /
    t4, opposite_foot_contact = contra_fs / t4, stride_time = t4, step_time =
    t4 - contra_fs and cadence = 60 / (t4 / 2); for t4 = 1.2 the cadence is
    exactly 100.0 in binary64 arithmetic. *)
Theorem temporal_features_formulas (trial : Trial) (t0 t1 t2 t3 t4 : float) :
  get_event_times (events trial) = Ok (t0, t1, t2, t3, t4) ->
  TemporalFeatures._calculate trial =
    Ok (mkFeatureArray
          ["double_support"; "single_support"; "foot_off"; "opposite_foot_off";
           "opposite_foot_contact"; "stride_time"; "step_time"; "cadence"]
          [(t1 + (t3 - t2)) / t4; (t2 - t1) / t4; t3 / t4; t1 / t4; t2 / t4;
           t4; t4 - t2; 60 / (t4 / 2)])
  /\ (t4 = stride_1_2 ->
      exists a, TemporalFeatures._calculate trial = Ok a
                /\ sel_feature a "cadence" = Some 100).
Proof.
  intros H.
  assert (E : TemporalFeatures._calculate trial =
    Ok (mkFeatureArray
          ["double_support"; "single_support"; "foot_off"; "opposite_foot_off";
           "opposite_foot_contact"; "stride_time"; "step_time"; "cadence"]
          [(t1 + (t3 - t2)) / t4; (t2 - t1) / t4; t3 / t4; t1 / t4; t2 / t4;
           t4; t4 - t2; 60 / (t4 / 2)])).
  { unfold TemporalFeatures._calculate. revert H.
    destruct (events trial) as [ev|]; [|discriminate].
    intros ->. reflexivity. }
  split; [exact E|].
  intros ->. eexists. split; [exact E|]. vm_compute. reflexivity.
Qed.

Lemma temporal_features_formulas_witness :
  TemporalFeatures._calculate stride_1_2_trial =
    Ok (mkFeatureArray
          ["double_support"; "single_support"; "foot_off"; "opposite_foot_off";
           "opposite_foot_contact"; "stride_time"; "step_time"; "cadence"]
          [(0.125 + (0.75 - 0.5)) / stride_1_2; (0.5 - 0.125) / stride_1_2;
           0.75 / stride_1_2; 0.125 / stride_1_2; 0.5 / stride_1_2;
           stride_1_2; stride_1_2 - 0.5; 60 / (stride_1_2 / 2)])
  /\ (stride_1_2 = stride_1_2 ->
      exists a, TemporalFeatures._calculate stride_1_2_trial = Ok a
                /\ sel_feature a "cadence" = Some 100).
Proof.
  apply (@temporal_features_formulas stride_1_2_trial 0 0.125 0.5 0.75 stride_1_2).
  vm_compute. reflexivity.
Defined.

End Temporal.

(* ================================================================== *)
(** * The per-cycle framework on empty input *)
(* ================================================================== *)

Section Framework.

Variable _calculate : Trial -> result FeatureArray.

Lemma contexts_loop_empty_context (cycles : TrialCycles) :
  (exists context, In (context, []) cycles) ->
  forall results context_dim,
    raises (contexts_loop _calculate cycles results context_dim) = true.
Proof.
  induction cycles as [|[context context_cycles] rest IH]; intros [c Hin].
  - destruct Hin.
  - intros results context_dim. cbn [contexts_loop].
    destruct Hin as [Heq|Hin].
    + injection Heq as -> ->. reflexivity.
    + destruct (cycles_loop _calculate context_cycles [] []) as [[crs dims]|e];
        cbn [Py.bind]; [|reflexivity].
      destruct (concat_new_dim crs dims) as [stacked|e]; cbn [Py.bind]; [|reflexivity].
      apply IH. exists c. exact Hin.
Qed.

(** C10: [calculate] raises (and so never returns an empty array) when the
    trial has no context at all, or when some context maps to no cycle: the
    concatenation over zero results fails.  With no context at all, and with
    an empty first context, the error is the [ValueError] of the empty
    concatenation. *)
Theorem calculate_empty_input_raises (trial : TrialCycles) :
  (trial = [] \/ exists context, In (context, []) trial) ->
  raises (calculate _calculate trial) = true
  /\ (trial = [] ->
      calculate _calculate trial =
        Raise (ValueError "must supply at least one object to concatenate"))
  /\ (forall context rest, trial = (context, []) :: rest ->
      calculate _calculate trial =
        Raise (ValueError "must supply at least one object to concatenate")).
Proof.
  intros H. split; [|split].
  - destruct H as [->|H]; [reflexivity|].
    unfold calculate.
    pose proof (@contexts_loop_empty_context trial H [] []) as R.
    destruct (contexts_loop _calculate trial [] []); [discriminate|reflexivity].
  - intros ->. reflexivity.
  - intros context rest ->. reflexivity.
Qed.

End Framework.

Lemma calculate_empty_input_raises_witness :
  raises (calculate constant_calculator empty_context_trial) = true
  /\ (empty_context_trial = [] ->
      calculate constant_calculator empty_context_trial =
        Raise (ValueError "must supply at least one object to concatenate"))
  /\ (forall context rest, empty_context_trial = (context, []) :: rest ->
      calculate constant_calculator empty_context_trial =
        Raise (ValueError "must supply at least one object to concatenate")).
Proof.
  apply (@calculate_empty_input_raises constant_calculator empty_context_trial).
  right. exists "Right". simpl. left. reflexivity.
Defined.

(* ================================================================== *)
(** * _flatten_features *)
(* ================================================================== *)

Section Flatten.

Lemma length_concat_uniform {A : Type} (rows : list (list A)) (c : nat) :
  Forall (fun row => length row = c) rows ->
  length (List.concat rows) = (length rows * c)%nat.
Proof.
  induction 1 as [|row rows Hrow _ IH]; simpl; [reflexivity|].
  rewrite length_app, IH, Hrow. reflexivity.
Qed.

(** Row-major addressing: entry [j] of row [i] sits at [i * c + j]. *)
Lemma nth_error_concat_uniform {A : Type} (rows : list (list A)) (c i j : nat) :
  Forall (fun row => length row = c) rows ->
  (i < length rows)%nat -> (j < c)%nat ->
  nth_error (List.concat rows) (i * c + j) = nth_error (nth i rows []) j.
Proof.
  intros H. revert i. induction H as [|row rows Hrow _ IH]; intros i Hi Hj.
  - simpl in Hi. lia.
  - destruct i as [|i]; simpl.
    + apply nth_error_app1. lia.
    + rewrite nth_error_app2 by lia.
      replace (c + i * c + j - length row)%nat with (i * c + j)%nat by lia.
      apply IH; simpl in Hi; lia.
Qed.

Lemma new_labels_rows (feature channel : list string) :
  new_labels feature channel = List.concat (label_rows feature channel).
Proof. apply flat_map_concat_map. Qed.

Lemma label_rows_uniform (feature channel : list string) :
  Forall (fun row => length row = length channel) (label_rows feature channel).
Proof.
  unfold label_rows. apply Forall_forall. intros row Hin.
  apply in_map_iff in Hin. destruct Hin as [f [<- _]]. apply length_map.
Qed.

Lemma length_new_labels (feature channel : list string) :
  length (new_labels feature channel) = (length feature * length channel)%nat.
Proof.
  rewrite new_labels_rows, (length_concat_uniform (label_rows_uniform feature channel)).
  unfold label_rows. rewrite length_map. reflexivity.
Qed.

Lemma has_underscore_joined (c f : string) :
  has_underscore (c ++ "_" ++ f) = true.
Proof.
  induction c as [|a c IH]; [reflexivity|].
  cbn [append has_underscore] in IH |- *. rewrite IH. apply orb_true_r.
Qed.

(** A joined label splits in one way only when the feature part has no
    underscore. *)
Lemma joined_label_inj (c1 c2 f1 f2 : string) :
  has_underscore f1 = false -> has_underscore f2 = false ->
  (c1 ++ "_" ++ f1 = c2 ++ "_" ++ f2)%string -> c1 = c2 /\ f1 = f2.
Proof.
  intros H1 H2. revert c2.
  induction c1 as [|a c1 IH]; intros [|b c2]; cbn [append]; intros E.
  - injection E as E. auto.
  - injection E as Ea E. pose proof (has_underscore_joined c2 f2) as K.
    cbn [append] in K. congruence.
  - injection E as Ea E. pose proof (has_underscore_joined c1 f1) as K.
    cbn [append] in K. congruence.
  - injection E as Ea E. destruct (IH _ E) as [-> ->]. subst. auto.
Qed.

Lemma in_new_labels (feature channel : list string) (l : string) :
  In l (new_labels feature channel) <->
  exists f c, In f feature /\ In c channel /\ l = (c ++ "_" ++ f)%string.
Proof.
  unfold new_labels. rewrite in_flat_map. split.
  - intros [f [Hf Hl]]. apply in_map_iff in Hl. destruct Hl as [c [<- Hc]]. eauto.
  - intros [f [c [Hf [Hc ->]]]]. exists f. split; [exact Hf|].
    apply in_map_iff. eauto.
Qed.

Lemma NoDup_new_labels (feature channel : list string) :
  NoDup feature -> NoDup channel ->
  Forall (fun f => has_underscore f = false) feature ->
  NoDup (new_labels feature channel).
Proof.
  intros Hf Hc Hu. induction Hf as [|f feature Hnotin Hf IH]; simpl; [constructor|].
  inversion Hu as [|? ? Huf Hu']; subst.
  apply NoDup_app.
  - apply NoDup_map_NoDup_ForallPairs; [|exact Hc].
    intros c1 c2 _ _ E. apply (@joined_label_inj c1 c2 f f Huf Huf E).
  - apply IH, Hu'.
  - intros l Hin1 Hin2. apply in_map_iff in Hin1. destruct Hin1 as [c [<- Hc1]].
    apply (in_new_labels feature channel) in Hin2.
    destruct Hin2 as [f' [c' [Hf' [_ E]]]].
    rewrite Forall_forall in Hu'.
    destruct (@joined_label_inj c c' f f' Huf (Hu' _ Hf') E) as [_ ->].
    contradiction.
Qed.

(** Where [_flatten_features] puts every entry and its label. *)
Lemma flatten_features_positions (a : FeatureChannelArray) :
  well_formed a ->
  exists out : FeatureArray,
    _flatten_features a = Ok out
    /\ forall i j, (i < length (fc_feature a))%nat -> (j < length (fc_channel a))%nat ->
         nth_error (feature out) (i * length (fc_channel a) + j)
           = Some (nth j (fc_channel a) "" ++ "_" ++ nth i (fc_feature a) "")%string
         /\ nth_error (values out) (i * length (fc_channel a) + j)
           = nth_error (nth i (fc_data a) []) j.
Proof.
  intros [Hrows Hcols].
  pose proof (length_concat_uniform Hcols) as Hlen.
  pose proof (length_new_labels (fc_feature a) (fc_channel a)) as Hlab.
  exists (mkFeatureArray (new_labels (fc_feature a) (fc_channel a))
                         (List.concat (fc_data a))).
  split.
  { unfold _flatten_features, reshape_C, shape0, shape1.
    replace (length (List.concat (fc_data a))
             =? length (fc_channel a) * length (fc_data a))%nat with true
      by (symmetry; apply Nat.eqb_eq; lia).
    cbn [Py.bind]. unfold DataArray.
    replace (length (new_labels (fc_feature a) (fc_channel a))
             =? length (List.concat (fc_data a)))%nat with true
      by (symmetry; apply Nat.eqb_eq; lia).
    reflexivity. }
  cbn [feature values]. intros i j Hi Hj. split.
  - rewrite new_labels_rows,
      (nth_error_concat_uniform (label_rows_uniform _ _)) by
      (unfold label_rows; rewrite ?length_map; lia).
    unfold label_rows.
    rewrite (nth_indep _ [] (map (fun c => (c ++ "_" ++ "")%string) (fc_channel a)))
      by (rewrite length_map; lia).
    rewrite (map_nth (fun f => map (fun c => (c ++ "_" ++ f)%string) (fc_channel a))).
    rewrite nth_error_map, (nth_error_nth' _ ""%string Hj). reflexivity.
  - apply (nth_error_concat_uniform Hcols); lia.
Qed.

(** C7 (as amended): for every 2-D array with F feature labels and C channel
    labels, [_flatten_features] returns a 1-D array of length F x C; position
    [i * C + j] carries the label "{channel j}_{feature i}" and the entry
    [(i, j)] of the input, so labels and data are enumerated feature-major
    (row-major) and positions correspond one to one to (feature, channel)
    pairs.  The labels are free of duplicates when the feature labels and the
    channel labels are distinct and no feature label contains an underscore. *)
Theorem flatten_features_layout (a : FeatureChannelArray) :
  well_formed a ->
  exists out : FeatureArray,
    _flatten_features a = Ok out
    /\ feature out = new_labels (fc_feature a) (fc_channel a)
    /\ values out = List.concat (fc_data a)
    /\ length (feature out) = (length (fc_feature a) * length (fc_channel a))%nat
    /\ length (values out) = (length (fc_feature a) * length (fc_channel a))%nat
    /\ (forall i j, (i < length (fc_feature a))%nat -> (j < length (fc_channel a))%nat ->
          nth_error (feature out) (i * length (fc_channel a) + j)
            = Some (nth j (fc_channel a) "" ++ "_" ++ nth i (fc_feature a) "")%string
          /\ nth_error (values out) (i * length (fc_channel a) + j)
            = nth_error (nth i (fc_data a) []) j)
    /\ (NoDup (fc_feature a) -> NoDup (fc_channel a) ->
        Forall (fun f => has_underscore f = false) (fc_feature a) ->
        NoDup (feature out)).
Proof.
  intros [Hrows Hcols].
  pose proof (length_concat_uniform Hcols) as Hlen.
  pose proof (length_new_labels (fc_feature a) (fc_channel a)) as Hlab.
  exists (mkFeatureArray (new_labels (fc_feature a) (fc_channel a))
                         (List.concat (fc_data a))).
  split.
  { unfold _flatten_features, reshape_C, shape0, shape1.
    replace (length (List.concat (fc_data a))
             =? length (fc_channel a) * length (fc_data a))%nat with true
      by (symmetry; apply Nat.eqb_eq; lia).
    cbn [Py.bind]. unfold DataArray.
    replace (length (new_labels (fc_feature a) (fc_channel a))
             =? length (List.concat (fc_data a)))%nat with true
      by (symmetry; apply Nat.eqb_eq; lia).
    reflexivity. }
  cbn [feature values].
  split; [reflexivity|]. split; [reflexivity|].
  split; [exact Hlab|]. split; [lia|]. split.
  - intros i j Hi Hj. split.
    + rewrite new_labels_rows,
        (nth_error_concat_uniform (label_rows_uniform _ _)) by
        (unfold label_rows; rewrite ?length_map; lia).
      unfold label_rows.
      rewrite (nth_indep _ [] (map (fun c => (c ++ "_" ++ "")%string) (fc_channel a)))
        by (rewrite length_map; lia).
      rewrite (map_nth (fun f => map (fun c => (c ++ "_" ++ f)%string) (fc_channel a))).
      rewrite nth_error_map, (nth_error_nth' _ ""%string Hj). reflexivity.
    + apply (nth_error_concat_uniform Hcols); lia.
  - apply NoDup_new_labels.
Qed.

Lemma flatten_features_layout_witness :
  exists out : FeatureArray,
    _flatten_features small_array = Ok out
    /\ feature out = new_labels (fc_feature small_array) (fc_channel small_array)
    /\ values out = List.concat (fc_data small_array)
    /\ length (feature out)
       = (length (fc_feature small_array) * length (fc_channel small_array))%nat
    /\ length (values out)
       = (length (fc_feature small_array) * length (fc_channel small_array))%nat
    /\ (forall i j, (i < length (fc_feature small_array))%nat ->
                    (j < length (fc_channel small_array))%nat ->
          nth_error (feature out) (i * length (fc_channel small_array) + j)
            = Some (nth j (fc_channel small_array) ""
                    ++ "_" ++ nth i (fc_feature small_array) "")%string
          /\ nth_error (values out) (i * length (fc_channel small_array) + j)
            = nth_error (nth i (fc_data small_array) []) j)
    /\ (NoDup (fc_feature small_array) -> NoDup (fc_channel small_array) ->
        Forall (fun f => has_underscore f = false) (fc_feature small_array) ->
        NoDup (feature out)).
Proof.
  apply (@flatten_features_layout small_array).
  split; [reflexivity|]. simpl. repeat constructor.
Defined.

(** C7 (as stated) fails: with the distinct feature labels "c" and "b_c" and
    the distinct channel labels "a" and "a_b", the flattened labels hold
    "a_b_c" twice. *)
Lemma flatten_labels_collide :
  NoDup (fc_feature colliding_array)
  /\ NoDup (fc_channel colliding_array)
  /\ well_formed colliding_array
  /\ _flatten_features colliding_array
     = Ok (mkFeatureArray ["a_c"; "a_b_c"; "a_b_c"; "a_b_b_c"] [1; 2; 3; 4]%float)
  /\ ~ NoDup ["a_c"; "a_b_c"; "a_b_c"; "a_b_b_c"].
Proof.
  split; [|split; [|split; [|split]]].
  - repeat constructor; simpl; intuition discriminate.
  - repeat constructor; simpl; intuition discriminate.
  - split; [reflexivity|]. simpl. repeat constructor.
  - reflexivity.
  - intros H. inversion H as [|? ? _ H']; subst.
    inversion H' as [|? ? Hn _]; subst. apply Hn. left. reflexivity.
Qed.

End Flatten.

(* ================================================================== *)
(** * TimeSeriesFeatures *)
(* ================================================================== *)

Section TimeSeries.

Import TimeSeriesFeatures.

Variables nanmean nanmedian nanstd : list float -> float.

Lemma nan_reduce_nonempty (op : float -> float -> float) (row : list float) :
  row <> [] -> exists v, nan_reduce op row = Ok v.
Proof.
  destruct row as [|x row]; [congruence|]. intros _. unfold nan_reduce.
  destruct (filter not_nan (x :: row)); eauto.
Qed.

Lemma reduce_channels_ok (r : list float -> result float) (rows : list (list float)) :
  Forall (fun row => exists v, r row = Ok v) rows ->
  exists vs, reduce_channels r rows = Ok vs
             /\ Forall2 (fun row v => r row = Ok v) rows vs.
Proof.
  induction 1 as [|row rows [v Hv] _ [vs [E F]]]; cbn [reduce_channels].
  - exists []. split; [reflexivity | constructor].
  - exists (v :: vs). rewrite Hv, E. split; [reflexivity|]. constructor; assumption.
Qed.

Lemma Forall2_nth_error {A B : Type} (P : A -> B -> Prop)
  (l : list A) (l' : list B) (n : nat) (a : A) :
  Forall2 P l l' -> nth_error l n = Some a ->
  exists b, nth_error l' n = Some b /\ P a b.
Proof.
  intros H. revert n. induction H as [|x y l l' Hxy _ IH]; intros [|n] E;
    try discriminate.
  - injection E as <-. exists y. auto.
  - apply (IH n E).
Qed.

Lemma nth_error_sub_arrays (a b : list float) (n : nat) (x y : float) :
  nth_error a n = Some x -> nth_error b n = Some y ->
  nth_error (sub_arrays a b) n = Some (PrimFloat.sub x y).
Proof.
  revert b n. induction a as [|x' a IH]; intros [|y' b] [|n] Ha Hb;
    try discriminate; cbn [sub_arrays nth_error] in *.
  - congruence.
  - apply IH; assumption.
Qed.

Lemma length_sub_arrays (a b : list float) :
  length a = length b -> length (sub_arrays a b) = length a.
Proof.
  revert b. induction a as [|x a IH]; intros [|y b] E; try discriminate;
    [reflexivity|]. cbn [sub_arrays length]. f_equal. apply IH.
  injection E as E. exact E.
Qed.

(** What [_calculate_features] computes on a regular analysis array with at
    least one time stamp. *)
Lemma calculate_features_rows (trial : Trial) (markers : ChannelArray) :
  get_data trial ANALYSIS = Ok markers ->
  regular markers -> time_coord markers <> [] ->
  exists mins maxs,
    reduce_channels nanmin (samples markers) = Ok mins
    /\ reduce_channels nanmax (samples markers) = Ok maxs
    /\ Forall2 (fun row v => nanmin row = Ok v) (samples markers) mins
    /\ Forall2 (fun row v => nanmax row = Ok v) (samples markers) maxs
    /\ _calculate_features nanmean nanmedian nanstd trial =
         Ok (mkFeatureChannelArray feature_names (channel markers)
               [mins; maxs; map nanmean (samples markers);
                map nanmedian (samples markers); map nanstd (samples markers);
                sub_arrays maxs mins]).
Proof.
  intros Hget [Hrows Hcols] Htime.
  assert (Hne : forall op, Forall (fun row => exists v, nan_reduce op row = Ok v)
                             (samples markers)).
  { intros op. rewrite Forall_forall in *. intros row Hin.
    apply nan_reduce_nonempty. intros ->.
    specialize (Hcols _ Hin). destruct (time_coord markers); [congruence|discriminate]. }
  destruct (@reduce_channels_ok (nan_reduce fmin) _ (Hne fmin)) as [mins [Emin Fmin]].
  destruct (@reduce_channels_ok (nan_reduce fmax) _ (Hne fmax)) as [maxs [Emax Fmax]].
  exists mins, maxs. unfold nanmin, nanmax.
  repeat (split; [assumption|]).
  unfold _calculate_features, nanmin, nanmax. rewrite Hget. cbn [Py.bind].
  rewrite Emin, Emax. reflexivity.
Qed.

(** C8: for every cycle whose analysis array is regular with at least one
    time stamp, [TimeSeriesFeatures._calculate] succeeds, and for every
    channel the value labelled "{channel}_amplitude" is exactly the value
    labelled "{channel}_max" minus the value labelled "{channel}_min" (one
    binary64 subtraction), these being the maximum and the minimum of the
    channel over the whole time axis with missing samples skipped. *)
Theorem amplitude_is_max_minus_min (trial : Trial) (markers : ChannelArray) :
  get_data trial ANALYSIS = Ok markers ->
  regular markers -> time_coord markers <> [] ->
  exists out : FeatureArray,
    TimeSeriesFeatures._calculate nanmean nanmedian nanstd trial = Ok out
    /\ forall (c : nat) (name : string) (row : list float),
         nth_error (channel markers) c = Some name ->
         nth_error (samples markers) c = Some row ->
         exists lo hi : float,
           nanmin row = Ok lo /\ nanmax row = Ok hi
           /\ nth_error (feature out) (0 * length (channel markers) + c)
              = Some (name ++ "_min")%string
           /\ nth_error (values out) (0 * length (channel markers) + c) = Some lo
           /\ nth_error (feature out) (1 * length (channel markers) + c)
              = Some (name ++ "_max")%string
           /\ nth_error (values out) (1 * length (channel markers) + c) = Some hi
           /\ nth_error (feature out) (5 * length (channel markers) + c)
              = Some (name ++ "_amplitude")%string
           /\ nth_error (values out) (5 * length (channel markers) + c)
              = Some (PrimFloat.sub hi lo).
Proof.
  intros Hget Hreg Htime.
  destruct (@calculate_features_rows trial markers Hget Hreg Htime)
    as [mins [maxs [Emin [Emax [Fmin [Fmax Efeat]]]]]].
  destruct Hreg as [Hrows Hcols].
  pose proof (Forall2_length Fmin) as Lmin.
  pose proof (Forall2_length Fmax) as Lmax.
  set (fca := mkFeatureChannelArray feature_names (channel markers)
               [mins; maxs; map nanmean (samples markers);
                map nanmedian (samples markers); map nanstd (samples markers);
                sub_arrays maxs mins]) in *.
  assert (Hwf : well_formed fca).
  { split; [reflexivity|]. cbn [fc_data fc_channel fca].
    repeat constructor; rewrite ?length_map, ?length_sub_arrays; congruence. }
  destruct (@flatten_features_positions fca Hwf) as [out [Eout Hpos]].
  exists out. split.
  { unfold TimeSeriesFeatures._calculate. rewrite Efeat. exact Eout. }
  intros c name row Hname Hrow.
  assert (Hc : (c < length (channel markers))%nat)
    by (apply nth_error_Some; congruence).
  destruct (@Forall2_nth_error _ _ _ _ _ c row Fmin Hrow) as [lo [Hlo Rlo]].
  destruct (@Forall2_nth_error _ _ _ _ _ c row Fmax Hrow) as [hi [Hhi Rhi]].
  exists lo, hi.
  assert (Hnm : nth c (channel markers) ""%string = name)
    by (apply nth_error_nth; exact Hname).
  cbn [fc_feature fc_channel fc_data fca] in Hpos.
  destruct (Hpos 0%nat c) as [L0 V0]; [cbn; lia | exact Hc |].
  destruct (Hpos 1%nat c) as [L1 V1]; [cbn; lia | exact Hc |].
  destruct (Hpos 5%nat c) as [L5 V5]; [cbn; lia | exact Hc |].
  rewrite Hnm in L0, L1, L5.
  cbn [nth feature_names] in L0, L1, L5, V0, V1, V5.
  repeat (split; [first [assumption | congruence]|]).
  rewrite V5. apply nth_error_sub_arrays; assumption.
Qed.

End TimeSeries.

Lemma amplitude_is_max_minus_min_witness :
  exists out : FeatureArray,
    TimeSeriesFeatures._calculate nanmean nanmedian nanstd hip_trial = Ok out
    /\ forall (c : nat) (name : string) (row : list float),
         nth_error (channel hip_analysis) c = Some name ->
         nth_error (samples hip_analysis) c = Some row ->
         exists lo hi : float,
           TimeSeriesFeatures.nanmin row = Ok lo
           /\ TimeSeriesFeatures.nanmax row = Ok hi
           /\ nth_error (feature out) (0 * length (channel hip_analysis) + c)
              = Some (name ++ "_min")%string
           /\ nth_error (values out) (0 * length (channel hip_analysis) + c) = Some lo
           /\ nth_error (feature out) (1 * length (channel hip_analysis) + c)
              = Some (name ++ "_max")%string
           /\ nth_error (values out) (1 * length (channel hip_analysis) + c) = Some hi
           /\ nth_error (feature out) (5 * length (channel hip_analysis) + c)
              = Some (name ++ "_amplitude")%string
           /\ nth_error (values out) (5 * length (channel hip_analysis) + c)
              = Some (PrimFloat.sub hi lo).
Proof.
  apply (@amplitude_is_max_minus_min nanmean nanmedian nanstd hip_trial hip_analysis).
  - reflexivity.
  - split; [reflexivity|]. repeat constructor.
  - discriminate.
Defined.

(* ================================================================== *)
(** * PhaseTimeSeriesFeatures *)
(* ================================================================== *)

Section PhaseTimeSeries.

Lemma flatten_features_labels (features : FeatureChannelArray) (out : FeatureArray) :
  _flatten_features features = Ok out ->
  feature out = new_labels (fc_feature features) (fc_channel features).
Proof.
  unfold _flatten_features.
  destruct (reshape_C (fc_data features) _) as [rs_data|]; [|discriminate].
  cbn [Py.bind]. unfold DataArray.
  destruct (_ =? _)%nat; [|discriminate].
  intros E. injection E as <-. reflexivity.
Qed.

Lemma calculate_features_names (nanmean nanmedian nanstd : list float -> float)
  (trial : Trial) (features : FeatureChannelArray) :
  TimeSeriesFeatures._calculate_features nanmean nanmedian nanstd trial = Ok features ->
  fc_feature features = TimeSeriesFeatures.feature_names.
Proof.
  unfold TimeSeriesFeatures._calculate_features.
  destruct (get_data trial ANALYSIS) as [markers|]; [|discriminate]. cbn [Py.bind].
  destruct (TimeSeriesFeatures.reduce_channels TimeSeriesFeatures.nanmin (samples markers));
    [|discriminate]. cbn [Py.bind].
  destruct (TimeSeriesFeatures.reduce_channels TimeSeriesFeatures.nanmax (samples markers));
    [|discriminate]. cbn [Py.bind concat_new_dim index items].
  intros E. injection E as <-. reflexivity.
Qed.

Lemma time_series_labels_plain (nanmean nanmedian nanstd : list float -> float)
  (trial : Trial) (out : FeatureArray) :
  TimeSeriesFeatures._calculate nanmean nanmedian nanstd trial = Ok out ->
  Forall TimeSeriesFeatures.plain_label (feature out).
Proof.
  unfold TimeSeriesFeatures._calculate.
  destruct (TimeSeriesFeatures._calculate_features nanmean nanmedian nanstd trial)
    as [features|] eqn:Ef; [|discriminate]. cbn [Py.bind].
  intros Eo. rewrite (flatten_features_labels _ Eo), (calculate_features_names _ _ _ _ Ef).
  apply Forall_forall. intros l Hin. apply in_new_labels in Hin.
  destruct Hin as [f [c [Hf [_ ->]]]]. exists c, f. auto.
Qed.

(** C2 (what the code does): on the example cycle the twelve labels are the
    six plain labels of the stance set followed by the same six plain labels
    of the swing set, none of them ending in "_swing"; and on every cycle on
    which [PhaseTimeSeriesFeatures._calculate] succeeds, every label of the
    result is a plain "{channel}_{feature}" label: the arrays returned by
    [assign_coords] are dropped. *)
Theorem phase_labels_not_suffixed :
  PhaseTimeSeriesFeatures._calculate nanmean nanmedian nanstd round4 hip_trial
    = Ok (mkFeatureArray
            ["hip_min"; "hip_max"; "hip_mean"; "hip_median"; "hip_std"; "hip_amplitude";
             "hip_min"; "hip_max"; "hip_mean"; "hip_median"; "hip_std"; "hip_amplitude"]
            [1; 3; 2; 2; 0x1.a20bd700c2c3ep-1; 2; 4; 5; 4.5; 4.5; 0.5; 1]%float)
  /\ forallb (fun l => negb (endswith l "_swing"))
       ["hip_min"; "hip_max"; "hip_mean"; "hip_median"; "hip_std"; "hip_amplitude";
        "hip_min"; "hip_max"; "hip_mean"; "hip_median"; "hip_std"; "hip_amplitude"]
     = true
  /\ (forall (mean median std : list float -> float) (round : float -> float)
        (trial : Trial) (out : FeatureArray),
        PhaseTimeSeriesFeatures._calculate mean median std round trial = Ok out ->
        Forall TimeSeriesFeatures.plain_label (feature out)).
Proof.
  split; [vm_compute; reflexivity|]. split; [vm_compute; reflexivity|].
  intros mean median std round trial out.
  unfold PhaseTimeSeriesFeatures._calculate.
  destruct (get_data trial ANALYSIS) as [analysis_data|]; [|discriminate]. cbn [Py.bind].
  destruct (events trial) as [event_table|]; [|discriminate].
  destruct (getitem _ 0) as [fo|]; [|discriminate]. cbn [Py.bind].
  destruct (getitem (time_coord analysis_data) 0) as [start_time|]; [|discriminate].
  cbn [Py.bind].
  destruct (getitem (time_coord analysis_data) _) as [end_time|]; [|discriminate].
  cbn [Py.bind].
  destruct (TimeSeriesFeatures._calculate mean median std
              (PhaseTimeSeriesFeatures._create_phase_trial trial start_time (round fo)))
    as [stand_features|] eqn:Estand; [|discriminate]. cbn [Py.bind].
  destruct (assign_coords stand_features _); [|discriminate]. cbn [Py.bind].
  destruct (TimeSeriesFeatures._calculate mean median std
              (PhaseTimeSeriesFeatures._create_phase_trial trial (round fo) end_time))
    as [swing_features|] eqn:Eswing; [|discriminate]. cbn [Py.bind].
  destruct (assign_coords swing_features _); [|discriminate]. cbn [Py.bind].
  unfold concat_feature. intros E. injection E as <-. cbn [feature map List.concat].
  rewrite app_nil_r. apply Forall_app. split.
  - exact (time_series_labels_plain _ _ _ _ Estand).
  - exact (time_series_labels_plain _ _ _ _ Eswing).
Qed.

End PhaseTimeSeries.

(* ================================================================== *)
(** * SpatialFeatures: step length *)
(* ================================================================== *)

Section StepLength.

Open Scope float_scope.

Variable get_marker_data : Trial -> MappedMarkers -> Marker.
Variable get_progression_vector : Trial -> Vec3.

(** C5: for every cycle with valid event times, [_calculate_step_length]
    returns, under "step_length", the Euclidean distance between the
    projections onto the normalized progression vector of the ipsi and the
    contra marker, each taken at the sample nearest in time to the final event
    time; with the ipsi marker at (0, 0, 0), the contra marker at (1, 0, 0)
    and the progression vector (1, 0, 0), the step length is exactly 1.0. *)
Theorem step_length_is_projected_distance
  (trial : Trial) (ipsi_marker contra_marker : MappedMarkers)
  (t0 t1 t2 t3 t4 : float) (ipsi contra : Vec3) :
  get_event_times (events trial) = Ok (t0, t1, t2, t3, t4) ->
  sel_nearest t4 (get_marker_data trial ipsi_marker) = Ok ipsi ->
  sel_nearest t4 (get_marker_data trial contra_marker) = Ok contra ->
  let axis := Linalg.normalize_vector (get_progression_vector trial) in
  let p := Linalg.project_point_on_vector ipsi axis in
  let q := Linalg.project_point_on_vector contra axis in
  SpatialFeatures._calculate_step_length get_marker_data get_progression_vector
      trial ipsi_marker contra_marker
    = Ok [("step_length",
           PrimFloat.sqrt ((vx q - vx p) * (vx q - vx p) + (vy q - vy p) * (vy q - vy p)
                           + (vz q - vz p) * (vz q - vz p)))]
  /\ (ipsi = origin -> contra = unit_x -> get_progression_vector trial = unit_x ->
      SpatialFeatures._calculate_step_length get_marker_data get_progression_vector
          trial ipsi_marker contra_marker
        = Ok [("step_length", 1)]).
Proof.
  intros Hev Hi Hc axis p q.
  assert (E : SpatialFeatures._calculate_step_length get_marker_data
                get_progression_vector trial ipsi_marker contra_marker
              = Ok [("step_length", Linalg.calculate_distance p q)]).
  { unfold SpatialFeatures._calculate_step_length.
    rewrite Hev. cbn [Py.bind]. rewrite Hi, Hc. reflexivity. }
  split.
  - rewrite E. reflexivity.
  - intros Hio Hco Hpo. rewrite E. subst p q axis. rewrite Hio, Hco, Hpo.
    vm_compute. reflexivity.
Qed.

End StepLength.

Lemma step_length_is_projected_distance_witness :
  let axis := Linalg.normalize_vector (step_progression step_trial) in
  let p := Linalg.project_point_on_vector origin axis in
  let q := Linalg.project_point_on_vector unit_x axis in
  SpatialFeatures._calculate_step_length step_markers step_progression
      step_trial R_META_2 L_META_2
    = Ok [("step_length",
           PrimFloat.sqrt ((vx q - vx p) * (vx q - vx p) + (vy q - vy p) * (vy q - vy p)
                           + (vz q - vz p) * (vz q - vz p))%float)]
  /\ (origin = origin -> unit_x = unit_x -> step_progression step_trial = unit_x ->
      SpatialFeatures._calculate_step_length step_markers step_progression
          step_trial R_META_2 L_META_2
        = Ok [("step_length", 1%float)]).
Proof.
  apply (@step_length_is_projected_distance step_markers step_progression
           step_trial R_META_2 L_META_2 0 0.125 0.5 0.625 1 origin unit_x);
    vm_compute; reflexivity.
Defined.

(* ================================================================== *)
(** * SpatialFeatures: minimal toe clearance *)
(* ================================================================== *)

Section MinBy.

Variable A : Type.
Variable key : A -> float.

(** [min(l, key=...)] returns an element whose key is below every key, as
    long as the keys compare (none is a NaN). *)
Lemma min_by_from_least (l : list A) (best : A) :
  F64.comparable (key best) ->
  (forall j, In j l -> F64.comparable (key j)) ->
  (min_by_from key best l = best \/ In (min_by_from key best l) l)
  /\ PrimFloat.leb (key (min_by_from key best l)) (key best) = true
  /\ (forall j, In j l -> PrimFloat.leb (key (min_by_from key best l)) (key j) = true).
Proof.
  revert best. induction l as [|x l IH]; intros best Hb Hl; cbn [min_by_from].
  - split; [left; reflexivity|]. split; [exact Hb|]. intros j [].
  - assert (Hx : F64.comparable (key x)) by (apply Hl; left; reflexivity).
    assert (Hl' : forall j, In j l -> F64.comparable (key j))
      by (intros j Hj; apply Hl; right; exact Hj).
    destruct (PrimFloat.ltb (key x) (key best)) eqn:E.
    + destruct (IH x Hx Hl') as [Hin [Hle Hall]].
      split; [right; destruct Hin as [->|Hin]; [left; reflexivity | right; exact Hin]|].
      split.
      * apply (@F64.leb_trans _ _ _ Hle). apply F64.ltb_leb, E.
      * intros j [<-|Hj]; [exact Hle | apply Hall, Hj].
    + destruct (IH best Hb Hl') as [Hin [Hle Hall]].
      split; [destruct Hin as [->|Hin]; [left; reflexivity | right; right; exact Hin]|].
      split; [exact Hle|].
      intros j [<-|Hj]; [|apply Hall, Hj].
      apply (@F64.leb_trans _ _ _ Hle). apply F64.not_ltb_leb; assumption.
Qed.

Lemma min_by_least (l : list A) (i : A) :
  (forall j, In j l -> F64.comparable (key j)) ->
  min_by key l = Some i ->
  In i l /\ forall j, In j l -> PrimFloat.leb (key i) (key j) = true.
Proof.
  destruct l as [|x l]; [discriminate|]. intros Hl E. injection E as <-.
  assert (Hx : F64.comparable (key x)) by (apply Hl; left; reflexivity).
  destruct (@min_by_from_least l x Hx (fun j Hj => Hl j (or_intror Hj)))
    as [Hin [Hle Hall]].
  split.
  - destruct Hin as [->|Hin]; [left; reflexivity | right; exact Hin].
  - intros j [<-|Hj]; [exact Hle | apply Hall, Hj].
Qed.

Lemma min_by_nonempty (l : list A) :
  l <> [] -> exists i, min_by key l = Some i.
Proof. destruct l; [congruence|]. intros _. eexists. reflexivity. Qed.

End MinBy.

Section ToeClearance.

Import SpatialFeatures.

Variable get_marker_data : Trial -> MappedMarkers -> Marker.
Variable calculate_speed_norm : Marker -> list float.
Variable np_quantile : list float -> float -> result float.
Variable find_local_minimas : list float -> list nat.

(** What the collaborators guarantee: one speed per sample, a quantile for
    every non-empty array, and minima that are indices of the trajectory. *)
Hypothesis speed_norm_length :
  forall m, length (calculate_speed_norm m) = length m.
Hypothesis quantile_defined :
  forall a q, a <> [] -> exists v, np_quantile a q = Ok v.
Hypothesis minima_in_range :
  forall z i, In i (find_local_minimas z) -> (i < length z)%nat.

Lemma getitem_nth {T : Type} (l : list T) (i : nat) (d : T) :
  (i < length l)%nat -> getitem l i = Ok (nth i l d).
Proof.
  intros H. unfold getitem. rewrite (nth_error_nth' l d H). reflexivity.
Qed.

Lemma filter_raising_total (cond : nat -> result bool) (p : nat -> bool) (l : list nat) :
  (forall i, In i l -> cond i = Ok (p i)) ->
  filter_raising cond l = Ok (filter p l).
Proof.
  induction l as [|i l IH]; intros H; cbn [filter_raising filter]; [reflexivity|].
  rewrite (H i (or_introl eq_refl)). cbn [Py.bind].
  rewrite IH by (intros j Hj; apply H; right; exact Hj).
  cbn [Py.bind]. destruct (p i); reflexivity.
Qed.

Lemma filter_twice {T : Type} (p q : T -> bool) (l : list T) :
  filter q (filter p l) = filter (fun x => p x && q x) l.
Proof.
  induction l as [|x l IH]; [reflexivity|]. cbn [filter].
  destruct (p x); cbn [filter andb]; [destruct (q x)|]; rewrite ?IH; reflexivity.
Qed.

Lemma length_sel_slice (start stop : float) (a b : Marker) :
  map at_time a = map at_time b ->
  length (sel_slice start stop a) = length (sel_slice start stop b).
Proof.
  revert b. induction a as [|x a IH]; intros [|y b] E; try discriminate;
    [reflexivity|].
  cbn [map] in E. injection E as Et E. unfold sel_slice. cbn [filter].
  rewrite Et. destruct (in_slice start stop (at_time y)); cbn [length];
    fold (sel_slice start stop a); fold (sel_slice start stop b);
    rewrite (IH b E); reflexivity.
Qed.

Lemma length_sel_z (m : Marker) : length (sel_z m) = length m.
Proof. apply length_map. Qed.

(** [_find_mtc_index] never raises on trajectories of one length: it returns
    the qualifying minimum of least height, or NaN when none qualifies. *)
Lemma find_mtc_index_total (toe heel : Marker) (toes_vel : list float) (thr : float) :
  length toes_vel = length toe -> length heel = length toe ->
  _find_mtc_index find_local_minimas toe heel toes_vel thr
  = Ok (match min_by (fun i => nth i (sel_z toe) nan)
                (qualifying_minima find_local_minimas toe heel toes_vel thr) with
        | None => MtcNaN
        | Some i => MtcAt i
        end).
Proof.
  intros Hv Hh. unfold _find_mtc_index.
  rewrite (@filter_raising_total _
             (fun i => PrimFloat.leb thr (nth i toes_vel nan))).
  2:{ intros i Hi. apply minima_in_range in Hi. rewrite length_sel_z in Hi.
      rewrite (@getitem_nth _ toes_vel i nan) by lia. reflexivity. }
  cbn [Py.bind].
  rewrite (@filter_raising_total _
             (fun i => PrimFloat.leb (nth i (sel_z toe) nan) (nth i (sel_z heel) nan))).
  2:{ intros i Hi. apply filter_In in Hi. destruct Hi as [Hi _].
      apply minima_in_range in Hi. rewrite length_sel_z in Hi.
      rewrite (@getitem_nth _ (sel_z toe) i nan) by (rewrite length_sel_z; lia).
      cbn [Py.bind].
      rewrite (@getitem_nth _ (sel_z heel) i nan) by (rewrite length_sel_z; lia).
      reflexivity. }
  cbn [Py.bind]. rewrite filter_twice.
  change (filter _ (find_local_minimas (sel_z toe)))
    with (qualifying_minima find_local_minimas toe heel toes_vel thr).
  destruct (min_by _ _); reflexivity.
Qed.

Lemma qualifying_in_range (toe heel : Marker) (toes_vel : list float) (thr : float) (i : nat) :
  In i (qualifying_minima find_local_minimas toe heel toes_vel thr) ->
  (i < length (sel_z toe))%nat /\ F64.comparable (nth i (sel_z toe) nan).
Proof.
  intros Hi. apply filter_In in Hi. destruct Hi as [Hi Hq].
  split; [apply minima_in_range, Hi|].
  unfold qualifies in Hq. apply andb_true_iff in Hq. destruct Hq as [_ Hq].
  apply (@F64.leb_comparable _ _ Hq).
Qed.

(** The least qualifying minimum of one marker, as the calculation reads it. *)
Lemma mtc_index_least (toe heel : Marker) (toes_vel : list float) (thr : float) :
  qualifying_minima find_local_minimas toe heel toes_vel thr <> [] ->
  exists i,
    min_by (fun i => nth i (sel_z toe) nan)
           (qualifying_minima find_local_minimas toe heel toes_vel thr) = Some i
    /\ In i (qualifying_minima find_local_minimas toe heel toes_vel thr)
    /\ getitem (sel_z toe) i = Ok (nth i (sel_z toe) nan)
    /\ (forall j, In j (qualifying_minima find_local_minimas toe heel toes_vel thr) ->
          PrimFloat.leb (nth i (sel_z toe) nan) (nth j (sel_z toe) nan) = true).
Proof.
  intros Hne.
  destruct (@min_by_nonempty _ (fun i => nth i (sel_z toe) nan) _ Hne) as [i Ei].
  exists i. split; [exact Ei|].
  destruct (@min_by_least _ (fun i => nth i (sel_z toe) nan) _ i
              (fun j Hj => proj2 (@qualifying_in_range toe heel toes_vel thr j Hj)) Ei)
    as [Hin Hall].
  split; [exact Hin|]. split; [|exact Hall].
  apply getitem_nth. apply (@qualifying_in_range toe heel toes_vel thr i Hin).
Qed.

(** C6: for every cycle with valid event times, markers on one time grid
    and a non-empty swing window, the calculation of the minimal toe clearance
    does not raise.  With the averaged toe velocity and its median threshold
    as computed, if no local minimum of either forefoot marker qualifies
    (velocity at or above the threshold and toe at or below the heel) the
    metric is NaN; if exactly one marker has qualifying minima, the metric is
    the least vertical value among that marker's qualifying minima; if both
    have, it is the smaller of the two markers' least values. *)
Theorem minimal_toe_clearance_cases
  (trial : Trial) (meta_2 meta_5 heel : MappedMarkers) (t0 t1 t2 t3 t4 : float) :
  get_event_times (events trial) = Ok (t0, t1, t2, t3, t4) ->
  map at_time (get_marker_data trial meta_2) = map at_time (get_marker_data trial heel) ->
  map at_time (get_marker_data trial meta_5) = map at_time (get_marker_data trial heel) ->
  sel_slice t3 t4 (get_marker_data trial heel) <> [] ->
  let ipsi_heel := sel_slice t3 t4 (get_marker_data trial heel) in
  let ipsi_meta_2 := sel_slice t3 t4 (get_marker_data trial meta_2) in
  let ipsi_meta_5 := sel_slice t3 t4 (get_marker_data trial meta_5) in
  let mtc := _calculate_minimal_toe_clearance get_marker_data calculate_speed_norm
               np_quantile find_local_minimas trial meta_2 meta_5 heel in
  exists (toes_vel : list float) (thr : float),
    mean_of_two (calculate_speed_norm ipsi_meta_2) (calculate_speed_norm ipsi_meta_5)
      = Ok toes_vel
    /\ np_quantile toes_vel 0.5%float = Ok thr
    /\ (let q2 := qualifying_minima find_local_minimas ipsi_meta_2 ipsi_heel toes_vel thr in
        let q5 := qualifying_minima find_local_minimas ipsi_meta_5 ipsi_heel toes_vel thr in
        let z2 := fun i => nth i (sel_z ipsi_meta_2) nan in
        let z5 := fun i => nth i (sel_z ipsi_meta_5) nan in
        (q2 = [] -> q5 = [] -> mtc = Ok [("minimal_toe_clearance", nan)])
        /\ (q2 <> [] -> q5 = [] ->
            exists i, In i q2 /\ mtc = Ok [("minimal_toe_clearance", z2 i)]
                      /\ forall j, In j q2 -> PrimFloat.leb (z2 i) (z2 j) = true)
        /\ (q2 = [] -> q5 <> [] ->
            exists i, In i q5 /\ mtc = Ok [("minimal_toe_clearance", z5 i)]
                      /\ forall j, In j q5 -> PrimFloat.leb (z5 i) (z5 j) = true)
        /\ (q2 <> [] -> q5 <> [] ->
            exists i2 i5, In i2 q2 /\ In i5 q5
                      /\ mtc = Ok [("minimal_toe_clearance", min2 (z2 i2) (z5 i5))]
                      /\ (forall j, In j q2 -> PrimFloat.leb (z2 i2) (z2 j) = true)
                      /\ (forall j, In j q5 -> PrimFloat.leb (z5 i5) (z5 j) = true))).
Proof.
  intros Hev Ht2 Ht5 Hne ipsi_heel ipsi_meta_2 ipsi_meta_5 mtc.
  assert (L2 : length ipsi_meta_2 = length ipsi_heel)
    by (apply length_sel_slice, Ht2).
  assert (L5 : length ipsi_meta_5 = length ipsi_heel)
    by (apply length_sel_slice, Ht5).
  assert (Ev : mean_of_two (calculate_speed_norm ipsi_meta_2)
                 (calculate_speed_norm ipsi_meta_5)
               = Ok (map (fun p => PrimFloat.div (PrimFloat.add (fst p) (snd p)) 2%float)
                       (combine (calculate_speed_norm ipsi_meta_2)
                                (calculate_speed_norm ipsi_meta_5)))).
  { unfold mean_of_two. rewrite !speed_norm_length, L2, L5, Nat.eqb_refl. reflexivity. }
  set (toes_vel := map _ _) in Ev.
  assert (Lv : length toes_vel = length ipsi_heel).
  { unfold toes_vel. rewrite length_map, length_combine, !speed_norm_length. lia. }
  destruct (quantile_defined (a := toes_vel) 0.5%float) as [thr Eq].
  { intros E. apply Hne. apply length_zero_iff_nil. fold ipsi_heel.
    rewrite <- Lv, E. reflexivity. }
  exists toes_vel, thr. split; [exact Ev|]. split; [exact Eq|].
  intros q2 q5 z2 z5.
  assert (Em : mtc =
    (let mtc2_i := match min_by z2 q2 with None => MtcNaN | Some i => MtcAt i end in
     let mtc5_i := match min_by z5 q5 with None => MtcNaN | Some i => MtcAt i end in
     if np_isnan mtc2_i && np_isnan mtc5_i then Ok [("minimal_toe_clearance", nan)]
     else if np_isnan mtc2_i then
       v <- getitem_at (sel_z ipsi_meta_5) mtc5_i ;; Ok [("minimal_toe_clearance", v)]
     else if np_isnan mtc5_i then
       v <- getitem_at (sel_z ipsi_meta_2) mtc2_i ;; Ok [("minimal_toe_clearance", v)]
     else
       v2 <- getitem_at (sel_z ipsi_meta_2) mtc2_i ;;
       v5 <- getitem_at (sel_z ipsi_meta_5) mtc5_i ;;
       Ok [("minimal_toe_clearance", min2 v2 v5)])).
  { unfold mtc, _calculate_minimal_toe_clearance. rewrite Hev. cbn [Py.bind].
    fold ipsi_heel ipsi_meta_2 ipsi_meta_5. rewrite Ev. cbn [Py.bind].
    rewrite Eq. cbn [Py.bind].
    rewrite (@find_mtc_index_total ipsi_meta_2 ipsi_heel toes_vel thr) by lia.
    cbn [Py.bind].
    rewrite (@find_mtc_index_total ipsi_meta_5 ipsi_heel toes_vel thr) by lia.
    reflexivity. }
  rewrite Em. clear Em. cbv zeta.
  split; [|split; [|split]].
  - intros E2 E5. rewrite E2, E5. reflexivity.
  - intros H2 E5.
    destruct (@mtc_index_least ipsi_meta_2 ipsi_heel toes_vel thr H2)
      as [i [Ei [Hin [Eg Hall]]]].
    exists i. split; [exact Hin|]. split; [|exact Hall].
    rewrite E5. fold q2 z2. fold q2 z2 in Ei. rewrite Ei.
    cbn [min_by np_isnan andb getitem_at]. rewrite Eg. reflexivity.
  - intros E2 H5.
    destruct (@mtc_index_least ipsi_meta_5 ipsi_heel toes_vel thr H5)
      as [i [Ei [Hin [Eg Hall]]]].
    exists i. split; [exact Hin|]. split; [|exact Hall].
    rewrite E2. fold q5 z5. fold q5 z5 in Ei. rewrite Ei.
    cbn [min_by np_isnan andb getitem_at]. rewrite Eg. reflexivity.
  - intros H2 H5.
    destruct (@mtc_index_least ipsi_meta_2 ipsi_heel toes_vel thr H2)
      as [i2 [Ei2 [Hin2 [Eg2 Hall2]]]].
    destruct (@mtc_index_least ipsi_meta_5 ipsi_heel toes_vel thr H5)
      as [i5 [Ei5 [Hin5 [Eg5 Hall5]]]].
    exists i2, i5. split; [exact Hin2|]. split; [exact Hin5|].
    split; [|split; assumption].
    fold q2 z2 q5 z5. fold q2 z2 in Ei2. fold q5 z5 in Ei5. rewrite Ei2, Ei5.
    cbn [np_isnan andb getitem_at]. rewrite Eg2. cbn [Py.bind].
    rewrite Eg5. reflexivity.
Qed.

End ToeClearance.

(** The reference collaborators meet what the calculation relies on. *)
Lemma reference_speed_norm_length (m : Marker) :
  length (calculate_speed_norm m) = length m.
Proof. unfold calculate_speed_norm. rewrite length_map, length_seq. reflexivity. Qed.

Lemma reference_quantile_defined (a : list float) (q : float) :
  a <> [] -> exists v, np_quantile a q = Ok v.
Proof. destruct a; [congruence|]. intros _. eexists. reflexivity. Qed.

Lemma reference_minima_in_range (z : list float) (i : nat) :
  In i (find_local_minimas z) -> (i < length z)%nat.
Proof.
  unfold find_local_minimas. intros H. apply filter_In in H. destruct H as [H _].
  apply in_seq in H. lia.
Qed.

Lemma minimal_toe_clearance_cases_witness :
  let ipsi_heel := sel_slice 0.625 1 (swing_markers step_trial R_HEEL) in
  let ipsi_meta_2 := sel_slice 0.625 1 (swing_markers step_trial R_META_2) in
  let ipsi_meta_5 := sel_slice 0.625 1 (swing_markers step_trial R_META_5) in
  let mtc := SpatialFeatures._calculate_minimal_toe_clearance swing_markers
               calculate_speed_norm np_quantile find_local_minimas
               step_trial R_META_2 R_META_5 R_HEEL in
  exists (toes_vel : list float) (thr : float),
    SpatialFeatures.mean_of_two (calculate_speed_norm ipsi_meta_2)
        (calculate_speed_norm ipsi_meta_5) = Ok toes_vel
    /\ np_quantile toes_vel 0.5%float = Ok thr
    /\ (let q2 := SpatialFeatures.qualifying_minima find_local_minimas
                    ipsi_meta_2 ipsi_heel toes_vel thr in
        let q5 := SpatialFeatures.qualifying_minima find_local_minimas
                    ipsi_meta_5 ipsi_heel toes_vel thr in
        let z2 := fun i => nth i (sel_z ipsi_meta_2) nan in
        let z5 := fun i => nth i (sel_z ipsi_meta_5) nan in
        (q2 = [] -> q5 = [] -> mtc = Ok [("minimal_toe_clearance", nan)])
        /\ (q2 <> [] -> q5 = [] ->
            exists i, In i q2 /\ mtc = Ok [("minimal_toe_clearance", z2 i)]
                      /\ forall j, In j q2 -> PrimFloat.leb (z2 i) (z2 j) = true)
        /\ (q2 = [] -> q5 <> [] ->
            exists i, In i q5 /\ mtc = Ok [("minimal_toe_clearance", z5 i)]
                      /\ forall j, In j q5 -> PrimFloat.leb (z5 i) (z5 j) = true)
        /\ (q2 <> [] -> q5 <> [] ->
            exists i2 i5, In i2 q2 /\ In i5 q5
                      /\ mtc = Ok [("minimal_toe_clearance", min2 (z2 i2) (z5 i5))]
                      /\ (forall j, In j q2 -> PrimFloat.leb (z2 i2) (z2 j) = true)
                      /\ (forall j, In j q5 -> PrimFloat.leb (z5 i5) (z5 j) = true))).
Proof.
  apply (@minimal_toe_clearance_cases swing_markers calculate_speed_norm np_quantile
           find_local_minimas reference_speed_norm_length reference_quantile_defined
           reference_minima_in_range step_trial R_META_2 R_META_5 R_HEEL
           0 0.125 0.5 0.625 1).
  - vm_compute. reflexivity.
  - reflexivity.
  - reflexivity.
  - vm_compute. discriminate.
Defined.

(* ================================================================== *)
(** * Further properties of the framework and of get_event_times *)
(* ================================================================== *)

Section FrameworkResults.

Variable _calculate : Trial -> result FeatureArray.








End FrameworkResults.


Lemma get_event_times_Ok_cardinality (ev : DataFrame) (ts : event_times) :
  get_event_times (Some ev) = Ok ts -> cardinality_ok ev = true.
Proof.
  unfold get_event_times, cardinality_ok.
  destruct (length (rows ev) <? 3)%nat; [discriminate|]. cbv zeta.
  destruct (length (ipsi_rows ev) =? 3)%nat; cbn [negb]; [|discriminate].
  destruct (length (contra_rows ev) =? 2)%nat; cbn [negb]; [|discriminate].
  reflexivity.
Qed.

Lemma positional_reads_Ok_of_labels (ev : DataFrame) :
  labels_ok ev = true -> exists ts, positional_reads ev = Ok ts.
Proof.
  intros Hl. unfold labels_ok in Hl. rewrite !andb_true_iff, !Nat.eqb_eq in Hl.
  destruct Hl as [[[H1 H2] H3] H4].
  destruct (length_two _ H1) as [r0 [r4 E1]].
  destruct (length_one _ H2) as [r3 E2].
  destruct (length_one _ H3) as [r2 E3].
  destruct (length_one _ H4) as [r1 E4].
  unfold positional_reads. rewrite E1, E2, E3, E4. eexists. reflexivity.
Qed.

(** X4: [get_event_times] returns timestamps exactly for the tables with
    three ipsi rows, two contra rows, two ipsi foot-strikes, one ipsi foot-off,
    one contra foot-strike and one contra foot-off; such a table has exactly
    five rows, and no table is ever accepted without them. *)
Theorem get_event_times_succeeds_iff (trial_events : option DataFrame) :
  (exists ts, get_event_times trial_events = Ok ts) <->
  (exists ev, trial_events = Some ev
              /\ cardinality_ok ev = true /\ labels_ok ev = true
              /\ length (rows ev) = 5%nat).
Proof.
  split.
  - intros [ts E]. destruct trial_events as [ev|]; [|discriminate].
    exists ev. split; [reflexivity|].
    pose proof (get_event_times_Ok_cardinality _ E) as Hc.
    split; [exact Hc|]. split.
    + rewrite (get_event_times_validated _ Hc) in E.
      apply (positional_reads_ok_labels _ Hc E).
    + apply cardinality_ok_lengths in Hc. destruct Hc as [Hi Hcn].
      rewrite <- (ipsi_contra_partition ev), Hi, Hcn. reflexivity.
  - intros [ev [-> [Hc [Hl _]]]].
    rewrite (get_event_times_validated _ Hc).
    apply (positional_reads_Ok_of_labels _ Hl).
Qed.

(* ================================================================== *)
(** * Further properties of TimeSeriesFeatures *)
(* ================================================================== *)

Section Extrema.

Import TimeSeriesFeatures.

Lemma not_nan_comparable (x : float) : not_nan x = true -> F64.comparable x.
Proof.
  unfold not_nan, PrimFloat.is_nan, F64.comparable. intros H.
  rewrite negb_involutive, FloatAxioms.eqb_spec in H. rewrite FloatAxioms.leb_spec.
  unfold SFeqb in H. unfold SFleb.
  destruct (SFcompare (Prim2SF x) (Prim2SF x)) as [[]|]; congruence.
Qed.

Lemma fold_fmin_least (xs : list float) (acc : float) :
  F64.comparable acc -> (forall x, In x xs -> F64.comparable x) ->
  (fold_left fmin xs acc = acc \/ In (fold_left fmin xs acc) xs)
  /\ PrimFloat.leb (fold_left fmin xs acc) acc = true
  /\ (forall x, In x xs -> PrimFloat.leb (fold_left fmin xs acc) x = true).
Proof.
  revert acc. induction xs as [|y xs IH]; intros acc Ha Hxs; cbn [fold_left].
  - split; [left; reflexivity|]. split; [exact Ha|]. intros x [].
  - assert (Hy : F64.comparable y) by (apply Hxs; left; reflexivity).
    assert (Hxs' : forall x, In x xs -> F64.comparable x)
      by (intros x Hx; apply Hxs; right; exact Hx).
    destruct (PrimFloat.ltb y acc) eqn:E.
    + replace (fmin acc y) with y by (unfold fmin; rewrite E; reflexivity).
      destruct (IH y Hy Hxs') as [Hin [Hle Hall]].
      split; [right; destruct Hin as [->|Hin]; [left; reflexivity | right; exact Hin]|].
      split.
      * apply (@F64.leb_trans _ _ _ Hle). apply F64.ltb_leb, E.
      * intros x [<-|Hx]; [exact Hle | apply Hall, Hx].
    + replace (fmin acc y) with acc by (unfold fmin; rewrite E; reflexivity).
      destruct (IH acc Ha Hxs') as [Hin [Hle Hall]].
      split; [destruct Hin as [->|Hin]; [left; reflexivity | right; right; exact Hin]|].
      split; [exact Hle|].
      intros x [<-|Hx]; [|apply Hall, Hx].
      apply (@F64.leb_trans _ _ _ Hle). apply F64.not_ltb_leb; assumption.
Qed.

Lemma fold_fmax_greatest (xs : list float) (acc : float) :
  F64.comparable acc -> (forall x, In x xs -> F64.comparable x) ->
  (fold_left fmax xs acc = acc \/ In (fold_left fmax xs acc) xs)
  /\ PrimFloat.leb acc (fold_left fmax xs acc) = true
  /\ (forall x, In x xs -> PrimFloat.leb x (fold_left fmax xs acc) = true).
Proof.
  revert acc. induction xs as [|y xs IH]; intros acc Ha Hxs; cbn [fold_left].
  - split; [left; reflexivity|]. split; [exact Ha|]. intros x [].
  - assert (Hy : F64.comparable y) by (apply Hxs; left; reflexivity).
    assert (Hxs' : forall x, In x xs -> F64.comparable x)
      by (intros x Hx; apply Hxs; right; exact Hx).
    destruct (PrimFloat.ltb acc y) eqn:E.
    + replace (fmax acc y) with y by (unfold fmax; rewrite E; reflexivity).
      destruct (IH y Hy Hxs') as [Hin [Hle Hall]].
      split; [right; destruct Hin as [->|Hin]; [left; reflexivity | right; exact Hin]|].
      split.
      * apply (@F64.leb_trans _ y _); [apply F64.ltb_leb, E | exact Hle].
      * intros x [<-|Hx]; [exact Hle | apply Hall, Hx].
    + replace (fmax acc y) with acc by (unfold fmax; rewrite E; reflexivity).
      destruct (IH acc Ha Hxs') as [Hin [Hle Hall]].
      split; [destruct Hin as [->|Hin]; [left; reflexivity | right; right; exact Hin]|].
      split; [exact Hle|].
      intros x [<-|Hx]; [|apply Hall, Hx].
      apply (@F64.leb_trans _ acc _); [|exact Hle]. apply F64.not_ltb_leb; assumption.
Qed.

(** X5: the minimum and the maximum feature of a channel are samples of the
    channel and bound every sample that is not missing, so min <= max; a
    channel whose samples are all missing gives NaN for both. *)
Theorem nanmin_nanmax_bounds (row : list float) (lo hi : float) :
  nanmin row = Ok lo -> nanmax row = Ok hi ->
  (filter not_nan row = [] -> lo = nan /\ hi = nan)
  /\ (filter not_nan row <> [] ->
      In lo row /\ In hi row /\ PrimFloat.leb lo hi = true
      /\ forall x, In x row -> not_nan x = true ->
           PrimFloat.leb lo x = true /\ PrimFloat.leb x hi = true).
Proof.
  unfold nanmin, nanmax, nan_reduce. destruct row as [|r row]; [discriminate|].
  destruct (filter not_nan (r :: row)) as [|y ys] eqn:Ef.
  - intros E1 E2. injection E1 as <-. injection E2 as <-.
    split; [auto | congruence].
  - intros E1 E2. injection E1 as <-. injection E2 as <-.
    split; [discriminate|]. intros _.
    assert (Hsub : forall x, In x (y :: ys) <-> In x (r :: row) /\ not_nan x = true)
      by (intros x; rewrite <- Ef; apply filter_In).
    assert (Hy : F64.comparable y)
      by (apply not_nan_comparable, (Hsub y); left; reflexivity).
    assert (Hys : forall x, In x ys -> F64.comparable x)
      by (intros x Hx; apply not_nan_comparable, (Hsub x); right; exact Hx).
    destruct (fold_fmin_least ys Hy Hys) as [Hin [Hle Hall]].
    destruct (fold_fmax_greatest ys Hy Hys) as [Hin' [Hle' Hall']].
    split; [apply (Hsub (fold_left fmin ys y)); destruct Hin as [->|Hin];
            [left; reflexivity | right; exact Hin]|].
    split; [apply (Hsub (fold_left fmax ys y)); destruct Hin' as [->|Hin'];
            [left; reflexivity | right; exact Hin']|].
    split; [apply (@F64.leb_trans _ y _); assumption|].
    intros x Hx Hn. destruct (proj2 (Hsub x) (conj Hx Hn)) as [<-|Hx'].
    + split; assumption.
    + split; [apply Hall, Hx' | apply Hall', Hx'].
Qed.

End Extrema.

Lemma nanmin_nanmax_bounds_witness :
  (filter TimeSeriesFeatures.not_nan [3; nan; 1; 2]%float = [] ->
     1%float = nan /\ 3%float = nan)
  /\ (filter TimeSeriesFeatures.not_nan [3; nan; 1; 2]%float <> [] ->
      In 1%float [3; nan; 1; 2]%float /\ In 3%float [3; nan; 1; 2]%float
      /\ PrimFloat.leb 1 3 = true
      /\ forall x, In x [3; nan; 1; 2]%float -> TimeSeriesFeatures.not_nan x = true ->
           PrimFloat.leb 1 x = true /\ PrimFloat.leb x 3 = true).
Proof.
  apply (@nanmin_nanmax_bounds [3; nan; 1; 2]%float 1%float 3%float);
    vm_compute; reflexivity.
Defined.

(* ================================================================== *)
(** * Further properties of PhaseTimeSeriesFeatures *)
(* ================================================================== *)

Section PhaseTrial.

Import PhaseTimeSeriesFeatures.

Lemma DataCategory_eqb_eq (a b : DataCategory) :
  DataCategory_eqb a b = true <-> a = b.
Proof. destruct a, b; simpl; split; congruence. Qed.

Lemma lookup_data_absent (c : DataCategory) (d : list (DataCategory * ChannelArray)) :
  ~ In c (map fst d) -> lookup_data c d = None.
Proof.
  induction d as [|[c' a] d IH]; intros H; cbn [lookup_data]; [reflexivity|].
  destruct (DataCategory_eqb c' c) eqn:E.
  - apply DataCategory_eqb_eq in E. exfalso. apply H. left. exact E.
  - apply IH. intros Hin. apply H. right. exact Hin.
Qed.

Lemma lookup_set_data (c c' : DataCategory) (a : ChannelArray)
  (d : list (DataCategory * ChannelArray)) :
  lookup_data c (set_data c' a d)
  = if DataCategory_eqb c' c then Some a else lookup_data c d.
Proof.
  induction d as [|[k v] d IH]; cbn [set_data lookup_data].
  - destruct c, c'; reflexivity.
  - destruct k, c, c'; cbn [DataCategory_eqb lookup_data] in *;
      try reflexivity; exact IH.
Qed.

(** The data of the phase trial, category by category. *)
Lemma phase_trial_data (f : ChannelArray -> ChannelArray) (c : DataCategory)
  (d : list (DataCategory * ChannelArray)) :
  NoDup (map fst d) ->
  forall t,
    let phase := fold_left (fun phase_trial kv => add_data phase_trial (fst kv) (f (snd kv)))
                           d t in
    events phase = events t
    /\ lookup_data c (all_data phase)
       = match lookup_data c d with
         | Some a => Some (f a)
         | None => lookup_data c (all_data t)
         end.
Proof.
  induction d as [|[k v] d IH]; intros Hnd t; cbn [fold_left lookup_data].
  - split; reflexivity.
  - cbn [map fst] in Hnd. inversion Hnd as [|? ? Hk Hnd']; subst.
    destruct (IH Hnd' (add_data t k (f v))) as [He Hl]. cbn [fst snd].
    split; [exact He|]. rewrite Hl. cbn [add_data all_data].
    destruct (DataCategory_eqb k c) eqn:E.
    + apply DataCategory_eqb_eq in E. subst k.
      rewrite (lookup_data_absent _ _ Hk), lookup_set_data.
      replace (DataCategory_eqb c c) with true
        by (symmetry; apply DataCategory_eqb_eq; reflexivity).
      reflexivity.
    + rewrite lookup_set_data, E. reflexivity.
Qed.

Lemma select_mask_filter {A : Type} (p : A -> bool) (l : list A) :
  select_mask (map p l) l = filter p l.
Proof.
  induction l as [|x l IH]; [reflexivity|]. cbn [map select_mask filter].
  rewrite IH. reflexivity.
Qed.

Lemma length_select_mask {A B : Type} (mask : list bool) (l : list A) (l' : list B) :
  length l = length l' ->
  length (select_mask mask l) = length (select_mask mask l').
Proof.
  revert l l'. induction mask as [|b mask IH]; intros [|x l] [|y l'] E;
    try discriminate; try reflexivity.
  cbn [select_mask]. injection E as E. destruct b; cbn [length]; rewrite (IH l l' E);
    reflexivity.
Qed.

Lemma create_phase_trial_data_at (trial : Trial) (start stop : float) (a : ChannelArray) :
  NoDup (map fst (all_data trial)) ->
  get_data trial ANALYSIS = Ok a ->
  get_data (_create_phase_trial trial start stop) ANALYSIS
    = Ok (sel_time_slice start stop a)
  /\ time_coord (sel_time_slice start stop a)
     = filter (in_slice start stop) (time_coord a).
Proof.
  intros Hnd Hget. unfold get_data in Hget.
  destruct (lookup_data ANALYSIS (all_data trial)) as [a'|] eqn:El; [|discriminate].
  injection Hget as ->.
  destruct (@phase_trial_data (sel_time_slice start stop) ANALYSIS (all_data trial) Hnd
              (mkTrial None [])) as [_ Hl].
  cbv zeta in Hl. rewrite El in Hl.
  split; [|apply select_mask_filter].
  unfold get_data, _create_phase_trial. rewrite Hl. reflexivity.
Qed.

(** X6: [_create_phase_trial] builds a trial without events in which every
    data category of the cycle is present, cut to the samples whose time lies
    in the slice (bounds included); channels are kept and a regular array
    stays regular. *)
Theorem create_phase_trial_slices (trial : Trial) (start stop : float)
  (c : DataCategory) (a : ChannelArray) :
  NoDup (map fst (all_data trial)) ->
  get_data trial c = Ok a ->
  events (_create_phase_trial trial start stop) = None
  /\ get_data (_create_phase_trial trial start stop) c = Ok (sel_time_slice start stop a)
  /\ time_coord (sel_time_slice start stop a)
     = filter (in_slice start stop) (time_coord a)
  /\ channel (sel_time_slice start stop a) = channel a
  /\ (regular a -> regular (sel_time_slice start stop a)).
Proof.
  intros Hnd Hget. unfold get_data in Hget.
  destruct (lookup_data c (all_data trial)) as [a'|] eqn:El; [|discriminate].
  injection Hget as ->.
  destruct (@phase_trial_data (sel_time_slice start stop) c (all_data trial) Hnd
              (mkTrial None [])) as [He Hl].
  cbv zeta in He, Hl. rewrite El in Hl.
  split; [exact He|]. split.
  { unfold get_data, _create_phase_trial. rewrite Hl. reflexivity. }
  split; [apply select_mask_filter|]. split; [reflexivity|].
  intros [Hrows Hcols]. unfold regular, sel_time_slice. cbn [samples channel time_coord].
  split; [rewrite length_map; exact Hrows|].
  apply Forall_forall. intros row Hin. apply in_map_iff in Hin.
  destruct Hin as [row' [<- Hin']]. rewrite Forall_forall in Hcols.
  apply length_select_mask. apply Hcols, Hin'.
Qed.

Lemma in_slice_boundary (start stop t : float) :
  PrimFloat.leb start t = true -> PrimFloat.leb t stop = true ->
  in_slice start t t = true /\ in_slice t stop t = true.
Proof.
  intros H1 H2. unfold in_slice.
  destruct (@F64.leb_comparable _ _ H1) as [_ Ht]. unfold F64.comparable in Ht.
  rewrite H1, H2, Ht. split; reflexivity.
Qed.

(** X7: the two phases overlap in the split sample: a time stamp of the
    analysis array equal to the foot-off time (between the first and the last
    time stamp) belongs both to the stance trial and to the swing trial, since
    both slices include their bounds. *)
Theorem phase_trials_share_split_sample (trial : Trial) (a : ChannelArray)
  (start_time fo_time end_time : float) :
  NoDup (map fst (all_data trial)) ->
  get_data trial ANALYSIS = Ok a ->
  In fo_time (time_coord a) ->
  PrimFloat.leb start_time fo_time = true -> PrimFloat.leb fo_time end_time = true ->
  exists stand swing,
    get_data (_create_phase_trial trial start_time fo_time) ANALYSIS = Ok stand
    /\ get_data (_create_phase_trial trial fo_time end_time) ANALYSIS = Ok swing
    /\ In fo_time (time_coord stand) /\ In fo_time (time_coord swing).
Proof.
  intros Hnd Hget Hin H1 H2.
  destruct (@create_phase_trial_data_at trial start_time fo_time a Hnd Hget) as [E1 T1].
  destruct (@create_phase_trial_data_at trial fo_time end_time a Hnd Hget) as [E2 T2].
  destruct (@in_slice_boundary start_time end_time fo_time H1 H2) as [B1 B2].
  exists (sel_time_slice start_time fo_time a), (sel_time_slice fo_time end_time a).
  split; [exact E1|]. split; [exact E2|].
  rewrite T1, T2. split; apply filter_In; split; assumption.
Qed.

End PhaseTrial.

Lemma hip_trial_keys : NoDup (map fst (all_data hip_trial)).
Proof. repeat constructor. simpl. tauto. Qed.

Lemma create_phase_trial_slices_witness :
  events (PhaseTimeSeriesFeatures._create_phase_trial hip_trial 0 0.5) = None
  /\ get_data (PhaseTimeSeriesFeatures._create_phase_trial hip_trial 0 0.5) ANALYSIS
     = Ok (sel_time_slice 0 0.5 hip_analysis)
  /\ time_coord (sel_time_slice 0 0.5 hip_analysis)
     = filter (in_slice 0 0.5) (time_coord hip_analysis)
  /\ channel (sel_time_slice 0 0.5 hip_analysis) = channel hip_analysis
  /\ (regular hip_analysis -> regular (sel_time_slice 0 0.5 hip_analysis)).
Proof.
  apply (@create_phase_trial_slices hip_trial 0 0.5 ANALYSIS hip_analysis hip_trial_keys).
  reflexivity.
Defined.

Lemma phase_trials_share_split_sample_witness :
  exists stand swing,
    get_data (PhaseTimeSeriesFeatures._create_phase_trial hip_trial 0 0.5) ANALYSIS
      = Ok stand
    /\ get_data (PhaseTimeSeriesFeatures._create_phase_trial hip_trial 0.5 1) ANALYSIS
      = Ok swing
    /\ In 0.5%float (time_coord stand) /\ In 0.5%float (time_coord swing).
Proof.
  apply (@phase_trials_share_split_sample hip_trial hip_analysis 0 0.5 1 hip_trial_keys).
  - reflexivity.
  - simpl. tauto.
  - vm_compute. reflexivity.
  - vm_compute. reflexivity.
Defined.

Section PhaseLabels.

Variables nanmean nanmedian nanstd : list float -> float.
Variable round4 : float -> float.

Lemma calculate_features_channel (trial : Trial) (features : FeatureChannelArray) :
  TimeSeriesFeatures._calculate_features nanmean nanmedian nanstd trial = Ok features ->
  exists markers, get_data trial ANALYSIS = Ok markers
                  /\ fc_channel features = channel markers.
Proof.
  unfold TimeSeriesFeatures._calculate_features.
  destruct (get_data trial ANALYSIS) as [markers|]; [|discriminate]. cbn [Py.bind].
  destruct (TimeSeriesFeatures.reduce_channels TimeSeriesFeatures.nanmin (samples markers));
    [|discriminate]. cbn [Py.bind].
  destruct (TimeSeriesFeatures.reduce_channels TimeSeriesFeatures.nanmax (samples markers));
    [|discriminate]. cbn [Py.bind concat_new_dim index items].
  intros E. injection E as <-. exists markers. split; reflexivity.
Qed.

Lemma time_series_labels (trial : Trial) (markers : ChannelArray) (out : FeatureArray) :
  get_data trial ANALYSIS = Ok markers ->
  TimeSeriesFeatures._calculate nanmean nanmedian nanstd trial = Ok out ->
  feature out = new_labels TimeSeriesFeatures.feature_names (channel markers).
Proof.
  intros Hget. unfold TimeSeriesFeatures._calculate.
  destruct (TimeSeriesFeatures._calculate_features nanmean nanmedian nanstd trial)
    as [features|] eqn:Ef; [|discriminate]. cbn [Py.bind].
  intros Eo. rewrite (flatten_features_labels _ Eo), (calculate_features_names _ _ _ _ Ef).
  destruct (calculate_features_channel _ Ef) as [m [Hm ->]].
  rewrite Hget in Hm. injection Hm as <-. reflexivity.
Qed.

(** X8: when [PhaseTimeSeriesFeatures._calculate] returns, its labels are the
    six-per-channel labels of the stance phase followed by the very same
    labels for the swing phase: 12 x C labels in all, every one of them
    present twice, so a label does not identify its phase. *)
Theorem phase_labels_doubled (trial : Trial) (analysis_data : ChannelArray)
  (out : FeatureArray) :
  NoDup (map fst (all_data trial)) ->
  get_data trial ANALYSIS = Ok analysis_data ->
  PhaseTimeSeriesFeatures._calculate nanmean nanmedian nanstd round4 trial = Ok out ->
  feature out
    = new_labels TimeSeriesFeatures.feature_names (channel analysis_data)
      ++ new_labels TimeSeriesFeatures.feature_names (channel analysis_data)
  /\ length (feature out) = (12 * length (channel analysis_data))%nat
  /\ length (values out) = length (feature out).
Proof.
  intros Hnd Hget. unfold PhaseTimeSeriesFeatures._calculate. rewrite Hget.
  cbn [Py.bind].
  destruct (events trial) as [event_table|]; [|discriminate].
  destruct (getitem _ 0) as [fo|]; [|discriminate]. cbn [Py.bind].
  destruct (getitem (time_coord analysis_data) 0) as [start_time|]; [|discriminate].
  cbn [Py.bind].
  destruct (getitem (time_coord analysis_data) _) as [end_time|]; [|discriminate].
  cbn [Py.bind].
  destruct (TimeSeriesFeatures._calculate nanmean nanmedian nanstd
              (PhaseTimeSeriesFeatures._create_phase_trial trial start_time (round4 fo)))
    as [stand_features|] eqn:Estand; [|discriminate]. cbn [Py.bind].
  destruct (assign_coords stand_features _) as [renamed|] eqn:Ea; [|discriminate].
  cbn [Py.bind].
  destruct (TimeSeriesFeatures._calculate nanmean nanmedian nanstd
              (PhaseTimeSeriesFeatures._create_phase_trial trial (round4 fo) end_time))
    as [swing_features|] eqn:Eswing; [|discriminate]. cbn [Py.bind].
  destruct (assign_coords swing_features _) as [renamed'|] eqn:Ea'; [|discriminate].
  cbn [Py.bind].
  unfold concat_feature. intros E. injection E as <-. cbn [feature values map List.concat].
  rewrite !app_nil_r.
  destruct (@create_phase_trial_data_at trial start_time (round4 fo) analysis_data
              Hnd Hget) as [G1 _].
  destruct (@create_phase_trial_data_at trial (round4 fo) end_time analysis_data
              Hnd Hget) as [G2 _].
  rewrite (@time_series_labels _ _ _ G1 Estand), (@time_series_labels _ _ _ G2 Eswing).
  cbn [sel_time_slice channel].
  split; [reflexivity|]. split.
  - rewrite length_app, length_new_labels. cbn [TimeSeriesFeatures.feature_names length].
    lia.
  - unfold assign_coords, DataArray, PhaseTimeSeriesFeatures.swing_labels in Ea, Ea'.
    rewrite length_map in Ea, Ea'.
    destruct (Nat.eqb_spec (length (feature stand_features))
                (length (values stand_features))) as [L1|]; [|discriminate].
    destruct (Nat.eqb_spec (length (feature swing_features))
                (length (values swing_features))) as [L2|]; [|discriminate].
    rewrite !length_app, <- L1, <- L2.
    rewrite (@time_series_labels _ _ _ G1 Estand), (@time_series_labels _ _ _ G2 Eswing).
    reflexivity.
Qed.

End PhaseLabels.

Lemma phase_labels_doubled_witness :
  feature (mkFeatureArray
            ["hip_min"; "hip_max"; "hip_mean"; "hip_median"; "hip_std"; "hip_amplitude";
             "hip_min"; "hip_max"; "hip_mean"; "hip_median"; "hip_std"; "hip_amplitude"]
            [1; 3; 2; 2; 0x1.a20bd700c2c3ep-1; 2; 4; 5; 4.5; 4.5; 0.5; 1]%float)
    = new_labels TimeSeriesFeatures.feature_names (channel hip_analysis)
      ++ new_labels TimeSeriesFeatures.feature_names (channel hip_analysis)
  /\ length (feature (mkFeatureArray
            ["hip_min"; "hip_max"; "hip_mean"; "hip_median"; "hip_std"; "hip_amplitude";
             "hip_min"; "hip_max"; "hip_mean"; "hip_median"; "hip_std"; "hip_amplitude"]
            [1; 3; 2; 2; 0x1.a20bd700c2c3ep-1; 2; 4; 5; 4.5; 4.5; 0.5; 1]%float))
     = (12 * length (channel hip_analysis))%nat
  /\ length (values (mkFeatureArray
            ["hip_min"; "hip_max"; "hip_mean"; "hip_median"; "hip_std"; "hip_amplitude";
             "hip_min"; "hip_max"; "hip_mean"; "hip_median"; "hip_std"; "hip_amplitude"]
            [1; 3; 2; 2; 0x1.a20bd700c2c3ep-1; 2; 4; 5; 4.5; 4.5; 0.5; 1]%float))
     = length (feature (mkFeatureArray
            ["hip_min"; "hip_max"; "hip_mean"; "hip_median"; "hip_std"; "hip_amplitude";
             "hip_min"; "hip_max"; "hip_mean"; "hip_median"; "hip_std"; "hip_amplitude"]
            [1; 3; 2; 2; 0x1.a20bd700c2c3ep-1; 2; 4; 5; 4.5; 4.5; 0.5; 1]%float)).
Proof.
  apply (@phase_labels_doubled nanmean nanmedian nanstd round4 hip_trial hip_analysis
           _ hip_trial_keys).
  - reflexivity.
  - vm_compute. reflexivity.
Defined.

(* ================================================================== *)
(** * Further properties of TemporalFeatures and SpatialFeatures *)
(* ================================================================== *)

Lemma temporal_features_of_times (trial : Trial) (t0 t1 t2 t3 t4 : float) :
  get_event_times (events trial) = Ok (t0, t1, t2, t3, t4) ->
  TemporalFeatures._calculate trial =
    Ok (mkFeatureArray
          ["double_support"; "single_support"; "foot_off"; "opposite_foot_off";
           "opposite_foot_contact"; "stride_time"; "step_time"; "cadence"]
          [(t1 + (t3 - t2)) / t4; (t2 - t1) / t4; t3 / t4; t1 / t4; t2 / t4;
           t4; t4 - t2; 60 / (t4 / 2)]%float).
Proof.
  unfold TemporalFeatures._calculate.
  destruct (events trial) as [ev|]; [|discriminate].
  intros ->. reflexivity.
Qed.

(** X9: [TemporalFeatures._calculate] raises exactly when the validation of
    the event table fails, and then raises the very exception of
    [get_event_times]; building the result never fails on its own. *)
Theorem temporal_features_fail_as_events (trial : Trial) (e : exn) :
  TemporalFeatures._calculate trial = Raise e
  <-> get_event_times (events trial) = Raise e.
Proof.
  destruct (get_event_times (events trial)) as [[[[[t0 t1] t2] t3] t4]|e'] eqn:E.
  - rewrite (temporal_features_of_times _ E). split; discriminate.
  - unfold TemporalFeatures._calculate.
    destruct (events trial) as [ev|].
    + rewrite E. cbn [Py.bind]. split; intros H; injection H as <-; reflexivity.
    + cbn [get_event_times] in E. injection E as <-.
      split; intros H; injection H as <-; reflexivity.
Qed.

(** X10: the temporal features do not depend on the opening ipsi
    foot-strike: two cycles whose event times agree from the contra foot-off
    on have the same features (stride_time is the closing time itself, so the
    event times are taken relative to the cycle start). *)
Theorem temporal_features_ignore_start (a b : Trial) (t0 t0' t1 t2 t3 t4 : float) :
  get_event_times (events a) = Ok (t0, t1, t2, t3, t4) ->
  get_event_times (events b) = Ok (t0', t1, t2, t3, t4) ->
  TemporalFeatures._calculate a = TemporalFeatures._calculate b.
Proof.
  intros Ha Hb.
  rewrite (temporal_features_of_times _ Ha), (temporal_features_of_times _ Hb).
  reflexivity.
Qed.

Lemma temporal_features_ignore_start_witness :
  TemporalFeatures._calculate step_trial
  = TemporalFeatures._calculate shifted_start_trial.
Proof.
  apply (@temporal_features_ignore_start step_trial shifted_start_trial
           0 0.0625 0.125 0.5 0.625 1); vm_compute; reflexivity.
Defined.

Lemma lookup_label_dict_get (d : list (string * float)) (k : string) :
  lookup_label (map fst d) (map snd d) k = dict_get d k.
Proof.
  induction d as [|[k' v] d IH]; [reflexivity|]. cbn [map fst snd lookup_label dict_get].
  destruct (String.eqb k' k); [reflexivity | exact IH].
Qed.

(** [_create_result_from_dict] never fails: the feature axis lists the
    keys in insertion order, the data the values in the same order, and
    selecting a feature by name gives the value the dictionary holds for it. *)
Lemma create_result_from_dict_lookup (result_dict : list (string * float)) :
  exists a : FeatureArray,
    _create_result_from_dict result_dict = Ok a
    /\ feature a = map fst result_dict
    /\ values a = map snd result_dict
    /\ forall name, sel_feature a name = dict_get result_dict name.
Proof.
  exists (mkFeatureArray (map fst result_dict) (map snd result_dict)).
  split.
  - unfold _create_result_from_dict, DataArray.
    rewrite !length_map, Nat.eqb_refl. reflexivity.
  - split; [reflexivity|]. split; [reflexivity|].
    intros name. apply lookup_label_dict_get.
Qed.

Section Spatial.

Import SpatialFeatures.

Variable get_marker_data : Trial -> MappedMarkers -> Marker.
Variable get_progression_vector : Trial -> Vec3.
Variable calculate_speed_norm : Marker -> list float.
Variable np_quantile : list float -> float -> result float.
Variable find_local_minimas : list float -> list nat.
Variable get_normal_vector : Vec3 -> Vec3 -> Vec3.

Let spatial_calculate : Trial -> result FeatureArray :=
  SpatialFeatures._calculate get_marker_data get_progression_vector
    calculate_speed_norm np_quantile find_local_minimas get_normal_vector.

(** X11: whenever the validation of the event table fails,
    [SpatialFeatures._calculate] raises the exception of [get_event_times]
    (for a missing table the same "Trial does not have events." error),
    whatever the markers hold. *)
Theorem spatial_features_fail_as_events (trial : Trial) (e : exn) :
  get_event_times (events trial) = Raise e ->
  spatial_calculate trial = Raise e.
Proof.
  unfold spatial_calculate, SpatialFeatures._calculate.
  destruct (events trial) as [ev|] eqn:Ev.
  - intros E. unfold _calculate_step_length. rewrite Ev, E. reflexivity.
  - cbn [get_event_times]. intros E. injection E as <-. reflexivity.
Qed.

Lemma step_length_keys (trial : Trial) (m1 m2 : MappedMarkers) (d : list (string * float)) :
  _calculate_step_length get_marker_data get_progression_vector trial m1 m2 = Ok d ->
  exists v, d = [("step_length", v)].
Proof.
  unfold _calculate_step_length.
  destruct (get_event_times (events trial)) as [[[[[t0 t1] t2] t3] t4]|]; [|discriminate].
  cbn [Py.bind].
  destruct (sel_nearest _ _); [|discriminate]. cbn [Py.bind].
  destruct (sel_nearest _ _); [|discriminate]. cbn [Py.bind].
  intros E. injection E as <-. eexists. reflexivity.
Qed.

Lemma step_width_keys (trial : Trial) (m1 m2 : MappedMarkers) (d : list (string * float)) :
  _calculate_step_width get_marker_data trial m1 m2 = Ok d ->
  exists v, d = [("step_width", v)].
Proof.
  unfold _calculate_step_width.
  destruct (get_event_times (events trial)) as [[[[[t0 t1] t2] t3] t4]|]; [|discriminate].
  cbn [Py.bind].
  destruct (sel_nearest _ _); [|discriminate]. cbn [Py.bind].
  destruct (sel_nearest _ _); [|discriminate]. cbn [Py.bind].
  destruct (sel_nearest _ _); [|discriminate]. cbn [Py.bind].
  intros E. injection E as <-. eexists. reflexivity.
Qed.

Lemma toe_clearance_keys (trial : Trial) (m1 m2 m3 : MappedMarkers)
  (d : list (string * float)) :
  _calculate_minimal_toe_clearance get_marker_data calculate_speed_norm np_quantile
    find_local_minimas trial m1 m2 m3 = Ok d ->
  exists v, d = [("minimal_toe_clearance", v)].
Proof.
  unfold _calculate_minimal_toe_clearance.
  destruct (get_event_times (events trial)) as [[[[[t0 t1] t2] t3] t4]|]; [|discriminate].
  cbn [Py.bind].
  destruct (mean_of_two _ _); [|discriminate]. cbn [Py.bind].
  destruct (np_quantile _ _); [|discriminate]. cbn [Py.bind].
  destruct (_find_mtc_index _ _ _ _ _) as [i2|]; [|discriminate]. cbn [Py.bind].
  destruct (_find_mtc_index _ _ _ _ _) as [i5|]; [|discriminate]. cbn [Py.bind].
  destruct (np_isnan i2 && np_isnan i5).
  { intros E. injection E as <-. eexists. reflexivity. }
  destruct (np_isnan i2).
  { destruct (getitem_at _ _); [|discriminate]. cbn [Py.bind].
    intros E. injection E as <-. eexists. reflexivity. }
  destruct (np_isnan i5).
  { destruct (getitem_at _ _); [|discriminate]. cbn [Py.bind].
    intros E. injection E as <-. eexists. reflexivity. }
  destruct (getitem_at _ _); [|discriminate]. cbn [Py.bind].
  destruct (getitem_at _ _); [|discriminate]. cbn [Py.bind].
  intros E. injection E as <-. eexists. reflexivity.
Qed.

Lemma AP_margin_keys (trial : Trial) (m1 m2 m3 : MappedMarkers) (d : list (string * float)) :
  _calculate_AP_margin_of_stability get_marker_data get_progression_vector
    trial m1 m2 m3 = Ok d ->
  exists v, d = [("AP_margin_of_stability", v)].
Proof.
  unfold _calculate_AP_margin_of_stability.
  destruct (get_event_times (events trial)) as [[[[[t0 t1] t2] t3] t4]|]; [|discriminate].
  cbn [Py.bind].
  destruct (sel_nearest _ _); [|discriminate]. cbn [Py.bind].
  destruct (sel_nearest _ _); [|discriminate]. cbn [Py.bind].
  destruct (sel_nearest _ _); [|discriminate]. cbn [Py.bind].
  intros E. injection E as <-. eexists. reflexivity.
Qed.

Lemma ML_margin_keys (trial : Trial) (m1 m2 m3 : MappedMarkers) (d : list (string * float)) :
  _calculate_ML_margin_of_stability get_marker_data get_progression_vector
    get_normal_vector trial m1 m2 m3 = Ok d ->
  exists v, d = [("ML_margin_of_stability", v)].
Proof.
  unfold _calculate_ML_margin_of_stability.
  destruct (get_event_times (events trial)) as [[[[[t0 t1] t2] t3] t4]|]; [|discriminate].
  cbn [Py.bind].
  destruct (sel_nearest _ _); [|discriminate]. cbn [Py.bind].
  destruct (sel_nearest _ _); [|discriminate]. cbn [Py.bind].
  destruct (sel_nearest _ _); [|discriminate]. cbn [Py.bind].
  intros E. injection E as <-. eexists. reflexivity.
Qed.

(** X12: when [SpatialFeatures._calculate] returns, the result holds exactly
    the five features step_length, step_width, minimal_toe_clearance,
    AP_margin_of_stability and ML_margin_of_stability, in this order, with one
    value each, and the event table of the cycle was valid. *)
Theorem spatial_features_labels (trial : Trial) (out : FeatureArray) :
  spatial_calculate trial = Ok out ->
  feature out = ["step_length"; "step_width"; "minimal_toe_clearance";
                 "AP_margin_of_stability"; "ML_margin_of_stability"]
  /\ length (values out) = 5%nat
  /\ exists ts, get_event_times (events trial) = Ok ts.
Proof.
  unfold spatial_calculate, SpatialFeatures._calculate.
  destruct (events trial) as [ev|] eqn:Ev; [|discriminate].
  destruct (_calculate_step_length _ _ _ _ _) as [d1|] eqn:E1; [|discriminate].
  cbn [Py.bind].
  destruct (_calculate_step_width _ _ _ _) as [d2|] eqn:E2; [|discriminate].
  cbn [Py.bind].
  destruct (_calculate_minimal_toe_clearance _ _ _ _ _ _ _ _) as [d3|] eqn:E3;
    [|discriminate]. cbn [Py.bind].
  destruct (_calculate_AP_margin_of_stability _ _ _ _ _ _) as [d4|] eqn:E4;
    [|discriminate]. cbn [Py.bind].
  destruct (_calculate_ML_margin_of_stability _ _ _ _ _ _ _) as [d5|] eqn:E5;
    [|discriminate]. cbn [Py.bind].
  destruct (step_length_keys _ _ _ E1) as [v1 ->].
  destruct (step_width_keys _ _ _ E2) as [v2 ->].
  destruct (toe_clearance_keys _ _ _ _ E3) as [v3 ->].
  destruct (AP_margin_keys _ _ _ _ E4) as [v4 ->].
  destruct (ML_margin_keys _ _ _ _ E5) as [v5 ->].
  intros E. vm_compute in E. injection E as <-.
  split; [reflexivity|]. split; [reflexivity|].
  unfold _calculate_step_length in E1. rewrite Ev in E1.
  destruct (get_event_times (Some ev)) as [ts|]; [eexists; reflexivity | discriminate].
Qed.

End Spatial.

Lemma spatial_features_fail_as_events_witness :
  SpatialFeatures._calculate full_markers step_progression calculate_speed_norm
    np_quantile find_local_minimas get_normal_vector two_plus_two_trial
  = Raise (ValueError "Error events sequence Right nr. 5").
Proof.
  apply (@spatial_features_fail_as_events full_markers step_progression
           calculate_speed_norm np_quantile find_local_minimas get_normal_vector
           two_plus_two_trial).
  vm_compute. reflexivity.
Defined.

Lemma spatial_features_labels_witness :
  feature spatial_example_result
    = ["step_length"; "step_width"; "minimal_toe_clearance";
       "AP_margin_of_stability"; "ML_margin_of_stability"]
  /\ length (values spatial_example_result) = 5%nat
  /\ exists ts, get_event_times (events step_trial) = Ok ts.
Proof.
  apply (@spatial_features_labels full_markers step_progression calculate_speed_norm
           np_quantile find_local_minimas get_normal_vector step_trial
           spatial_example_result).
  vm_compute. reflexivity.
Defined.



(* ================================================================== *)
(** * Stray labels and the errors of the phase calculator *)
(* ================================================================== *)

Lemma strike_off_cover (rs : list EventRow) :
  (length (with_label FOOT_STRIKE rs) + length (with_label FOOT_OFF rs))%nat
    = length rs ->
  Forall (fun r => label r = FOOT_STRIKE \/ label r = FOOT_OFF) rs.
Proof.
  induction rs as [|r rs IH]; [constructor|].
  pose proof (strike_off_disjoint rs) as D. simpl.
  destruct (String.eqb_spec (label r) FOOT_STRIKE) as [Hs|Hs];
    destruct (String.eqb_spec (label r) FOOT_OFF) as [Ho|Ho]; simpl; intros E.
  - rewrite Hs in Ho. discriminate.
  - constructor; [left; exact Hs | apply IH; unfold with_label in *; lia].
  - constructor; [right; exact Ho | apply IH; unfold with_label in *; lia].
  - unfold with_label in *. lia.
Qed.

Lemma Forall_partition {A : Type} (P : A -> Prop) (f : A -> bool) (l : list A) :
  Forall P (filter f l) -> Forall P (filter (fun x => negb (f x)) l) -> Forall P l.
Proof.
  rewrite !Forall_forall. intros H1 H2 x Hx.
  destruct (f x) eqn:E.
  - apply H1, filter_In. auto.
  - apply H2, filter_In. rewrite E. auto.
Qed.

(** X13: an event table that [get_event_times] accepts holds foot-strike
    and foot-off rows only: a single row with any other label makes the
    extraction fail. *)
Theorem get_event_times_rejects_stray_labels (ev : DataFrame) (ts : event_times) :
  get_event_times (Some ev) = Ok ts ->
  Forall (fun r => label r = FOOT_STRIKE \/ label r = FOOT_OFF) (rows ev).
Proof.
  intros E. pose proof (get_event_times_Ok_cardinality _ E) as Hc.
  rewrite (get_event_times_validated _ Hc) in E.
  pose proof (positional_reads_ok_labels _ Hc E) as Hl.
  apply cardinality_ok_lengths in Hc. destruct Hc as [Hi Hcn].
  unfold labels_ok in Hl. rewrite !andb_true_iff, !Nat.eqb_eq in Hl.
  destruct Hl as [[[H1 H2] H3] H4].
  apply (@Forall_partition _ _ (fun r => String.eqb (context r) (Events.attrs_context ev))).
  - apply strike_off_cover. fold (ipsi_rows ev). lia.
  - apply strike_off_cover. fold (contra_rows ev). lia.
Qed.

Lemma get_event_times_rejects_stray_labels_witness :
  Forall (fun r => label r = FOOT_STRIKE \/ label r = FOOT_OFF) (rows regular_cycle).
Proof.
  apply (@get_event_times_rejects_stray_labels regular_cycle (0, 0.125, 0.5, 0.625, 1)%float).
  vm_compute. reflexivity.
Defined.

Section PhaseErrors.

Variables nanmean nanmedian nanstd : list float -> float.
Variable round4 : float -> float.

(** X14: with the analysis data present, [PhaseTimeSeriesFeatures._calculate]
    raises an [AttributeError] on a cycle without event table (not the
    [ValueError] of [get_event_times]), and an [IndexError] on a cycle whose
    event table has no foot-off row in the context of the analysis data; it
    never validates the table with [get_event_times]. *)
Theorem phase_features_event_errors (trial : Trial) (analysis_data : ChannelArray) :
  get_data trial ANALYSIS = Ok analysis_data ->
  (events trial = None ->
     PhaseTimeSeriesFeatures._calculate nanmean nanmedian nanstd round4 trial
     = Raise (AttributeError "'NoneType' object has no attribute 'loc'"))
  /\ (forall event_table, events trial = Some event_table ->
       with_label FOOT_OFF
         (filter (fun r => String.eqb (context r) (array_context analysis_data))
                 (rows event_table)) = [] ->
       PhaseTimeSeriesFeatures._calculate nanmean nanmedian nanstd round4 trial
       = Raise (IndexError 0 0)).
Proof.
  intros Hget. unfold PhaseTimeSeriesFeatures._calculate. rewrite Hget. cbn [Py.bind].
  split.
  - intros ->. reflexivity.
  - intros event_table -> ->. reflexivity.
Qed.

End PhaseErrors.

Lemma phase_features_event_errors_witness :
  (events hip_trial_no_events = None ->
     PhaseTimeSeriesFeatures._calculate nanmean nanmedian nanstd round4 hip_trial_no_events
     = Raise (AttributeError "'NoneType' object has no attribute 'loc'"))
  /\ (forall event_table, events hip_trial_no_events = Some event_table ->
       with_label FOOT_OFF
         (filter (fun r => String.eqb (context r) (array_context hip_analysis))
                 (rows event_table)) = [] ->
       PhaseTimeSeriesFeatures._calculate nanmean nanmedian nanstd round4 hip_trial_no_events
       = Raise (IndexError 0 0)).
Proof.
  apply (@phase_features_event_errors nanmean nanmedian nanstd round4
           hip_trial_no_events hip_analysis).
  reflexivity.
Defined.
